(** * Elevation-mapping ROS node: the coordinator of [elevation_mapping_ros.cpp]

    A shallow embedding of [ElevationMappingNode]: its constructor, the pose
    and point-cloud callbacks, the service handlers and the throttled timer,
    with the statements of the specification proved or refuted against it.

    Conventions.
    - A C++ [double] is a value of an abstract carrier [F] with the
      operations the node uses (class [Scalar]).  Everything that only
      depends on the order of the operations is proved for every carrier;
      statements that need algebra are proved at the instance [RScalar] of
      exact real arithmetic.
    - Member variables keep their C++ names ([lowpassPosition_], ...).
    - Every statement of a handler that touches the engine, the cached grid
      map, the mutex, a publisher or the logger appends one entry to the
      node's journal, together with the number of holds on [mapMutex_] at
      that moment. *)

From Stdlib Require Import ZArith QArith List String Bool Lia.
From Stdlib Require Import Floats.
From Stdlib Require Import Reals Lra.
Import ListNotations.

Set Implicit Arguments.

(** ** Scalars *)

(** The arithmetic of [double] that the node relies on. *)
Class Scalar : Type := {
  F : Type;
  (** a decimal literal of the source text *)
  lit : Q -> F;
  fadd : F -> F -> F;
  fsub : F -> F -> F;
  fmul : F -> F -> F;
  fdiv : F -> F -> F;
  fsqrt : F -> F;
  (** [a > b] *)
  fgtb : F -> F -> bool;
  (** conversion of a [double] to [Eigen::Index], towards zero *)
  ftrunc : F -> Z;
  (** [float], the coefficient type of a grid-map layer, and [cast<float>()] *)
  cell : Type;
  to_cell : F -> cell
}.

Declare Scope scalar_scope.
Delimit Scope scalar_scope with sc.
Infix "+" := fadd : scalar_scope.
Infix "-" := fsub : scalar_scope.
Infix "*" := fmul : scalar_scope.
Infix "/" := fdiv : scalar_scope.

Definition f0 {Sc : Scalar} : F := lit 0.

(** ** Fixed-size vectors ([Eigen::Vector2d], [Vector3d], [Vector4d]) *)

Section Vectors.
Context {Sc : Scalar}.
Local Open Scope scalar_scope.

Record Vector2d := V2 { x2 : F; y2 : F }.
Record Vector3d := V3 { x3 : F; y3 : F; z3 : F }.
Record Vector4d := V4 { x4 : F; y4 : F; z4 : F; w4 : F }.

Definition scale3 (a : F) (v : Vector3d) : Vector3d :=
  V3 (a * x3 v) (a * y3 v) (a * z3 v).
Definition add3 (u v : Vector3d) : Vector3d :=
  V3 (x3 u + x3 v) (y3 u + y3 v) (z3 u + z3 v).
Definition sub3 (u v : Vector3d) : Vector3d :=
  V3 (x3 u - x3 v) (y3 u - y3 v) (z3 u - z3 v).
(** [v.norm()]: the square root of the sum of the squared coefficients
    (the order in which they are added plays no part below) *)
Definition norm3 (v : Vector3d) : F :=
  fsqrt (x3 v * x3 v + y3 v * y3 v + z3 v * z3 v).

Definition scale4 (a : F) (v : Vector4d) : Vector4d :=
  V4 (a * x4 v) (a * y4 v) (a * z4 v) (a * w4 v).
Definition add4 (u v : Vector4d) : Vector4d :=
  V4 (x4 u + x4 v) (y4 u + y4 v) (z4 u + z4 v) (w4 u + w4 v).
Definition sub4 (u v : Vector4d) : Vector4d :=
  V4 (x4 u - x4 v) (y4 u - y4 v) (z4 u - z4 v) (w4 u - w4 v).
Definition norm4 (v : Vector4d) : F :=
  fsqrt (x4 v * x4 v + y4 v * y4 v + z4 v * z4 v + w4 v * w4 v).
End Vectors.

(** ** Exact real arithmetic as a carrier *)

Definition Rgtb (a b : R) : bool := if Rlt_dec b a then true else false.

(** Truncation towards zero. *)
Definition Rtrunc (x : R) : Z :=
  if Rle_dec 0 x then Int_part x else (- Int_part (- x))%Z.

Definition RScalar : Scalar := {|
  F := R;
  lit := Q2R;
  fadd := Rplus;
  fsub := Rminus;
  fmul := Rmult;
  fdiv := Rdiv;
  fsqrt := sqrt;
  fgtb := Rgtb;
  ftrunc := Rtrunc;
  cell := R;
  to_cell := fun x => x
|}.

(** ** IEEE binary64 as a carrier

    The arithmetic the compiled node runs: [double] is binary64 with
    rounding to nearest, [float] is binary32.  A binary32 value is kept as
    the binary64 value equal to it. *)

Definition Z2float (z : Z) : float :=
  match z with
  | Z0 => PrimFloat.zero
  | Zpos p => PrimFloat.of_uint63 (Uint63.of_Z (Zpos p))
  | Zneg p => PrimFloat.opp (PrimFloat.of_uint63 (Uint63.of_Z (Zpos p)))
  end.

(** The binary64 value nearest to a decimal literal (numerator and
    denominator below 2^53). *)
Definition float_lit (q : Q) : float :=
  PrimFloat.div (Z2float (Qnum q)) (Z2float (Zpos (Qden q))).

(** Conversion to an integer drops the fraction; it is undefined in C++ for
    a value that is not finite, and 0 here. *)
Definition float_trunc (x : float) : Z :=
  match Prim2SF x with
  | S754_finite s m e =>
      cond_Zopp s (match e with
                   | Zneg k => Z.shiftr (Zpos m) (Zpos k)
                   | _ => Z.shiftl (Zpos m) e
                   end)
  | _ => 0%Z
  end.

(** Rounding of a binary64 value to binary32 (24 bits of precision). *)
Definition float_to_binary32 (x : float) : float :=
  match Prim2SF x with
  | S754_finite s m e =>
      SF2Prim (binary_normalize 24 128 (cond_Zopp s (Zpos m)) e s)
  | _ => x
  end.

Definition Binary64 : Scalar := {|
  F := float;
  lit := float_lit;
  fadd := PrimFloat.add;
  fsub := PrimFloat.sub;
  fmul := PrimFloat.mul;
  fdiv := PrimFloat.div;
  fsqrt := PrimFloat.sqrt;
  fgtb := fun a b => PrimFloat.ltb b a;
  ftrunc := float_trunc;
  cell := float;
  to_cell := float_to_binary32
|}.

(** ** The grid-map library, as far as the node uses it

    [grid_map::GridMap], [grid_map::GridMapRosConverter] and the message
    types belong to the grid_map library.  The map keeps its layer names in
    insertion order ([layers_]) and one matrix per name ([data_]); the two
    are kept here as one association list, which is the class invariant
    (every name of [layers_] has its matrix, and no name occurs twice). *)

Inductive Exception : Type :=
| TransformException (what : string)   (* tf::TransformException *)
| out_of_range (what : string).        (* std::out_of_range *)

Section GridMapLibrary.
Context {Sc : Scalar}.

(** A dynamically sized matrix: its dimensions and its coefficients. *)
Record Matrix (A : Type) := {
  rows : Z;
  cols : Z;
  coeffs : list A
}.

(** [Eigen::MatrixXd::Zero(r, c)] *)
Definition Zero (r c : Z) : Matrix F :=
  {| rows := r; cols := c; coeffs := repeat f0 (Z.to_nat (r * c)) |}.

(** [m.cast<float>()] *)
Definition cast_float (m : Matrix F) : Matrix cell :=
  {| rows := rows m; cols := cols m; coeffs := map to_cell (coeffs m) |}.

Record GridMap := {
  frameId : string;
  timestamp : Z;
  layerData : list (string * Matrix cell);
  basicLayers : list string;
  length_ : F * F;           (* side lengths, in metres *)
  resolution : F;            (* side of a cell, in metres *)
  position : F * F;
  size_ : Z * Z;             (* number of cells per side *)
  startIndex : Z * Z
}.

Definition set_layerData (d : list (string * Matrix cell)) (g : GridMap) :=
  {| frameId := frameId g; timestamp := timestamp g; layerData := d;
     basicLayers := basicLayers g; length_ := length_ g;
     resolution := resolution g; position := position g;
     size_ := size_ g; startIndex := startIndex g |}.

(** [GridMap::setFrameId] *)
Definition setFrameId (f : string) (g : GridMap) :=
  {| frameId := f; timestamp := timestamp g; layerData := layerData g;
     basicLayers := basicLayers g; length_ := length_ g;
     resolution := resolution g; position := position g;
     size_ := size_ g; startIndex := startIndex g |}.

(** A default-constructed [grid_map::GridMap]: no layer, all geometry zero. *)
Definition GridMap_empty : GridMap :=
  {| frameId := EmptyString; timestamp := 0; layerData := [];
     basicLayers := []; length_ := (lit 0, lit 0); resolution := lit 0;
     position := (lit 0, lit 0); size_ := (0, 0)%Z; startIndex := (0, 0)%Z |}.

(** [GridMap::getLayers] *)
Definition getLayers (g : GridMap) : list string := map fst (layerData g).

Fixpoint lookup_layer (l : string) (d : list (string * Matrix cell))
  : option (Matrix cell) :=
  match d with
  | [] => None
  | (k, m) :: d' => if String.eqb k l then Some m else lookup_layer l d'
  end.

(** [GridMap::exists] *)
Definition exists_ (g : GridMap) (l : string) : bool :=
  match lookup_layer l (layerData g) with Some _ => true | None => false end.

(** [GridMap::get]: throws [std::out_of_range] for a layer the map lacks
    (the exception carries the name of the layer here, a sentence with that
    name in the library). *)
Definition get (g : GridMap) (l : string) : Exception + Matrix cell :=
  match lookup_layer l (layerData g) with
  | Some m => inr m
  | None => inl (out_of_range l)
  end.

Fixpoint replace_layer (l : string) (m : Matrix cell)
         (d : list (string * Matrix cell)) : list (string * Matrix cell) :=
  match d with
  | [] => []
  | (k, m') :: d' =>
      if String.eqb k l then (k, m) :: d' else (k, m') :: replace_layer l m d'
  end.

(** [GridMap::add(layer, data)]: the data of an existing layer is
    overwritten, a new layer is appended.  The two assertions of the
    library on the dimensions of [data] are compiled out of a release
    build and are not modelled. *)
Definition add (l : string) (m : Matrix cell) (g : GridMap) : GridMap :=
  if exists_ g l
  then set_layerData (replace_layer l m (layerData g)) g
  else set_layerData (layerData g ++ [(l, m)]) g.

(** [grid_map_msgs::GridMap] *)
Record GridMapMsg := {
  info_stamp : Z;
  info_frame_id : string;
  info_resolution : F;
  info_length_x : F;
  info_length_y : F;
  info_position_x : F;
  info_position_y : F;
  msg_layers : list string;
  msg_basic_layers : list string;
  msg_data : list (Matrix cell);
  outer_start_index : Z;
  inner_start_index : Z
}.

Definition set_info_stamp (t : Z) (m : GridMapMsg) : GridMapMsg :=
  {| info_stamp := t; info_frame_id := info_frame_id m;
     info_resolution := info_resolution m;
     info_length_x := info_length_x m; info_length_y := info_length_y m;
     info_position_x := info_position_x m;
     info_position_y := info_position_y m;
     msg_layers := msg_layers m; msg_basic_layers := msg_basic_layers m;
     msg_data := msg_data m; outer_start_index := outer_start_index m;
     inner_start_index := inner_start_index m |}.

(** The loop of the converter over the requested layers. *)
Fixpoint get_all (g : GridMap) (ls : list string)
  : Exception + list (Matrix cell) :=
  match ls with
  | [] => inr []
  | l :: ls' =>
      match get g l with
      | inl e => inl e
      | inr m =>
          match get_all g ls' with
          | inl e => inl e
          | inr ms => inr (m :: ms)
          end
      end
  end.

(** [GridMapRosConverter::toMessage(gridMap, layers, message)] *)
Definition toMessage_layers (g : GridMap) (ls : list string)
  : Exception + GridMapMsg :=
  match get_all g ls with
  | inl e => inl e
  | inr ms =>
      inr {| info_stamp := timestamp g; info_frame_id := frameId g;
             info_resolution := resolution g;
             info_length_x := fst (length_ g);
             info_length_y := snd (length_ g);
             info_position_x := fst (position g);
             info_position_y := snd (position g);
             msg_layers := ls; msg_basic_layers := basicLayers g;
             msg_data := ms;
             outer_start_index := fst (startIndex g);
             inner_start_index := snd (startIndex g) |}
  end.

(** [GridMapRosConverter::toMessage(gridMap, message)]: all layers. *)
Definition toMessage (g : GridMap) : Exception + GridMapMsg :=
  toMessage_layers g (getLayers g).
End GridMapLibrary.

(** ** Messages, the engine and the journal *)

Section Coordinator.
Context {Sc : Scalar}.
Local Open Scope scalar_scope.
Local Open Scope string_scope.

(** The parameters the constructor reads from the node handle; [None] for
    a parameter that is not set. *)
Record NodeHandle := {
  param_pointcloud_topics : option (list string);
  param_pose_topic : option string;
  param_map_frame : option string;
  param_position_lowpass_alpha : option F;
  param_orientation_lowpass_alpha : option F;
  param_recordable_fps : option F;
  param_enable_pointcloud_publishing : option bool
}.

(** [nh.param<T>(name, variable, default)] *)
Definition param {A : Type} (v : option A) (default : A) : A :=
  match v with Some a => a | None => default end.

(** [sensor_msgs::PointCloud2], with the points [pcl::fromPCLPointCloud2]
    reads out of it. *)
Record PointCloud2 := {
  header_frame_id : string;
  header_stamp : Z;
  points : list (cell * cell * cell)
}.

(** The fields of [geometry_msgs::PoseWithCovarianceStamped] that are read. *)
Record Pose := {
  position_x : F; position_y : F; position_z : F;
  orientation_x : F; orientation_y : F; orientation_z : F; orientation_w : F
}.

Definition Matrix3d : Type := Vector3d * Vector3d * Vector3d.

(** [Eigen::Affine3d] as [poseTFToEigen] fills it. *)
Record Affine3d := {
  rotation : Matrix3d;
  translation : Vector3d
}.

Inductive TfError := LookupException | ConnectivityException
                   | ExtrapolationException.

(** The outcome of [waitForTransform] followed by [lookupTransform]. *)
Inductive TfAnswer :=
| TfFound (t : Affine3d)
| TfFailed (kind : TfError) (what : string).

(** [grid_map_msgs::GetGridMap::Request] *)
Record GetGridMapRequest := {
  request_position_x : F;
  request_position_y : F;
  request_length_x : F;
  request_length_y : F;
  request_layers : list string
}.

(** What is outside this file: the engine behind [ElevationMappingWrapper]
    and two functions of the grid_map library. *)
Class Outside := {
  engine : Type;
  map_initialize : NodeHandle -> engine;
  map_input : list (cell * cell * cell) -> Matrix3d -> Vector3d -> F -> F ->
              engine -> engine;
  map_move_to : Vector2d -> engine -> engine;
  map_get_grid_map : engine -> GridMap -> GridMap;
  map_clear : engine -> engine;
  (** [GridMap::getSubmap(position, length, index, isSuccess)] *)
  GridMap_getSubmap : GridMap -> Vector2d -> Vector2d ->
                      GridMap * (Z * Z) * bool;
  (** [GridMapRosConverter::toPointCloud(gridMap, layer, msg)] *)
  PointCloud2Msg : Type;
  toPointCloud : GridMap -> string -> PointCloud2Msg
}.
Context {O : Outside}.

Inductive Publisher := mapPub_ | recordablePub_ | pointPub_ | alivePub_.

Inductive Message :=
| GridMapMessage (m : GridMapMsg)
| PointCloudMessage (m : PointCloud2Msg)
| EmptyMessage.

(** The uses of the member [gridMap_]. *)
Inductive CacheUse :=
| Refresh          (* map_.get_grid_map(gridMap_) *)
| UseToMessage     (* GridMapRosConverter::toMessage(gridMap_, ...) *)
| UseToPointCloud  (* GridMapRosConverter::toPointCloud(gridMap_, ...) *)
| UseExists        (* gridMap_.exists(...) *)
| UseGetSubmap.    (* gridMap_.getSubmap(...) *)

Inductive Level := ERROR | INFO | DEBUG | INFO_THROTTLE | DEBUG_THROTTLE.

Inductive Action :=
| Lock                               (* scoped_lock on mapMutex_ *)
| Unlock
| EngineInput (pe oe : F)            (* map_.input(..., pe, oe) *)
| EngineMoveTo (p : Vector2d)
| EngineClear
| Cache (u : CacheUse)
| SubmapToMessage                    (* toMessage of the extracted submap *)
| Publish (p : Publisher) (m : Message)
| Log (l : Level) (text : string).

Record Node := {
  (* the engine behind the wrapper *)
  map_ : engine;
  (* the cached grid map *)
  gridMap_ : GridMap;
  (* what the listener answers for a target frame, a source frame and a
     time *)
  transformListener_ : string -> string -> Z -> TfAnswer;
  lowpassPosition_ : Vector3d;
  lowpassOrientation_ : Vector4d;
  positionError_ : F;
  orientationError_ : F;
  positionAlpha_ : F;
  orientationAlpha_ : F;
  enablePointCloudPublishing_ : bool;
  recordableFps_ : F;
  mapFrameId_ : string;
  (* the topics subscribed to *)
  poseSub_ : string;
  pointcloudSubs_ : list string;
  (* the duration given to createTimer, when the timer was created *)
  recordableTimer_ : option F;
  (* holds of the running callback on the recursive mutex *)
  mapMutex_ : nat;
  (* what ros::Time::now() returns *)
  clock_ : Z;
  (* effects so far, oldest first, each with the holds on the mutex *)
  journal : list (nat * Action)
}.

Definition set_map_ (v : engine) (n : Node) : Node :=
  {| map_ := v; gridMap_ := gridMap_ n;
     transformListener_ := transformListener_ n;
     lowpassPosition_ := lowpassPosition_ n;
     lowpassOrientation_ := lowpassOrientation_ n;
     positionError_ := positionError_ n;
     orientationError_ := orientationError_ n;
     positionAlpha_ := positionAlpha_ n;
     orientationAlpha_ := orientationAlpha_ n;
     enablePointCloudPublishing_ := enablePointCloudPublishing_ n;
     recordableFps_ := recordableFps_ n; mapFrameId_ := mapFrameId_ n;
     poseSub_ := poseSub_ n; pointcloudSubs_ := pointcloudSubs_ n;
     recordableTimer_ := recordableTimer_ n; mapMutex_ := mapMutex_ n;
     clock_ := clock_ n; journal := journal n |}.

Definition set_gridMap_ (v : GridMap) (n : Node) : Node :=
  {| map_ := map_ n; gridMap_ := v;
     transformListener_ := transformListener_ n;
     lowpassPosition_ := lowpassPosition_ n;
     lowpassOrientation_ := lowpassOrientation_ n;
     positionError_ := positionError_ n;
     orientationError_ := orientationError_ n;
     positionAlpha_ := positionAlpha_ n;
     orientationAlpha_ := orientationAlpha_ n;
     enablePointCloudPublishing_ := enablePointCloudPublishing_ n;
     recordableFps_ := recordableFps_ n; mapFrameId_ := mapFrameId_ n;
     poseSub_ := poseSub_ n; pointcloudSubs_ := pointcloudSubs_ n;
     recordableTimer_ := recordableTimer_ n; mapMutex_ := mapMutex_ n;
     clock_ := clock_ n; journal := journal n |}.

Definition set_lowpassPosition_ (v : Vector3d) (n : Node) : Node :=
  {| map_ := map_ n; gridMap_ := gridMap_ n;
     transformListener_ := transformListener_ n; lowpassPosition_ := v;
     lowpassOrientation_ := lowpassOrientation_ n;
     positionError_ := positionError_ n;
     orientationError_ := orientationError_ n;
     positionAlpha_ := positionAlpha_ n;
     orientationAlpha_ := orientationAlpha_ n;
     enablePointCloudPublishing_ := enablePointCloudPublishing_ n;
     recordableFps_ := recordableFps_ n; mapFrameId_ := mapFrameId_ n;
     poseSub_ := poseSub_ n; pointcloudSubs_ := pointcloudSubs_ n;
     recordableTimer_ := recordableTimer_ n; mapMutex_ := mapMutex_ n;
     clock_ := clock_ n; journal := journal n |}.

Definition set_lowpassOrientation_ (v : Vector4d) (n : Node) : Node :=
  {| map_ := map_ n; gridMap_ := gridMap_ n;
     transformListener_ := transformListener_ n;
     lowpassPosition_ := lowpassPosition_ n; lowpassOrientation_ := v;
     positionError_ := positionError_ n;
     orientationError_ := orientationError_ n;
     positionAlpha_ := positionAlpha_ n;
     orientationAlpha_ := orientationAlpha_ n;
     enablePointCloudPublishing_ := enablePointCloudPublishing_ n;
     recordableFps_ := recordableFps_ n; mapFrameId_ := mapFrameId_ n;
     poseSub_ := poseSub_ n; pointcloudSubs_ := pointcloudSubs_ n;
     recordableTimer_ := recordableTimer_ n; mapMutex_ := mapMutex_ n;
     clock_ := clock_ n; journal := journal n |}.

Definition set_positionError_ (v : F) (n : Node) : Node :=
  {| map_ := map_ n; gridMap_ := gridMap_ n;
     transformListener_ := transformListener_ n;
     lowpassPosition_ := lowpassPosition_ n;
     lowpassOrientation_ := lowpassOrientation_ n; positionError_ := v;
     orientationError_ := orientationError_ n;
     positionAlpha_ := positionAlpha_ n;
     orientationAlpha_ := orientationAlpha_ n;
     enablePointCloudPublishing_ := enablePointCloudPublishing_ n;
     recordableFps_ := recordableFps_ n; mapFrameId_ := mapFrameId_ n;
     poseSub_ := poseSub_ n; pointcloudSubs_ := pointcloudSubs_ n;
     recordableTimer_ := recordableTimer_ n; mapMutex_ := mapMutex_ n;
     clock_ := clock_ n; journal := journal n |}.

Definition set_orientationError_ (v : F) (n : Node) : Node :=
  {| map_ := map_ n; gridMap_ := gridMap_ n;
     transformListener_ := transformListener_ n;
     lowpassPosition_ := lowpassPosition_ n;
     lowpassOrientation_ := lowpassOrientation_ n;
     positionError_ := positionError_ n; orientationError_ := v;
     positionAlpha_ := positionAlpha_ n;
     orientationAlpha_ := orientationAlpha_ n;
     enablePointCloudPublishing_ := enablePointCloudPublishing_ n;
     recordableFps_ := recordableFps_ n; mapFrameId_ := mapFrameId_ n;
     poseSub_ := poseSub_ n; pointcloudSubs_ := pointcloudSubs_ n;
     recordableTimer_ := recordableTimer_ n; mapMutex_ := mapMutex_ n;
     clock_ := clock_ n; journal := journal n |}.

Definition set_enablePointCloudPublishing_ (v : bool) (n : Node) : Node :=
  {| map_ := map_ n; gridMap_ := gridMap_ n;
     transformListener_ := transformListener_ n;
     lowpassPosition_ := lowpassPosition_ n;
     lowpassOrientation_ := lowpassOrientation_ n;
     positionError_ := positionError_ n;
     orientationError_ := orientationError_ n;
     positionAlpha_ := positionAlpha_ n;
     orientationAlpha_ := orientationAlpha_ n;
     enablePointCloudPublishing_ := v; recordableFps_ := recordableFps_ n;
     mapFrameId_ := mapFrameId_ n; poseSub_ := poseSub_ n;
     pointcloudSubs_ := pointcloudSubs_ n;
     recordableTimer_ := recordableTimer_ n; mapMutex_ := mapMutex_ n;
     clock_ := clock_ n; journal := journal n |}.

Definition set_mapMutex_ (v : nat) (n : Node) : Node :=
  {| map_ := map_ n; gridMap_ := gridMap_ n;
     transformListener_ := transformListener_ n;
     lowpassPosition_ := lowpassPosition_ n;
     lowpassOrientation_ := lowpassOrientation_ n;
     positionError_ := positionError_ n;
     orientationError_ := orientationError_ n;
     positionAlpha_ := positionAlpha_ n;
     orientationAlpha_ := orientationAlpha_ n;
     enablePointCloudPublishing_ := enablePointCloudPublishing_ n;
     recordableFps_ := recordableFps_ n; mapFrameId_ := mapFrameId_ n;
     poseSub_ := poseSub_ n; pointcloudSubs_ := pointcloudSubs_ n;
     recordableTimer_ := recordableTimer_ n; mapMutex_ := v;
     clock_ := clock_ n; journal := journal n |}.

Definition set_journal (v : list (nat * Action)) (n : Node) : Node :=
  {| map_ := map_ n; gridMap_ := gridMap_ n;
     transformListener_ := transformListener_ n;
     lowpassPosition_ := lowpassPosition_ n;
     lowpassOrientation_ := lowpassOrientation_ n;
     positionError_ := positionError_ n;
     orientationError_ := orientationError_ n;
     positionAlpha_ := positionAlpha_ n;
     orientationAlpha_ := orientationAlpha_ n;
     enablePointCloudPublishing_ := enablePointCloudPublishing_ n;
     recordableFps_ := recordableFps_ n; mapFrameId_ := mapFrameId_ n;
     poseSub_ := poseSub_ n; pointcloudSubs_ := pointcloudSubs_ n;
     recordableTimer_ := recordableTimer_ n; mapMutex_ := mapMutex_ n;
     clock_ := clock_ n; journal := v |}.

Definition set_transformListener_ (v : string -> string -> Z -> TfAnswer)
           (n : Node) : Node :=
  {| map_ := map_ n; gridMap_ := gridMap_ n; transformListener_ := v;
     lowpassPosition_ := lowpassPosition_ n;
     lowpassOrientation_ := lowpassOrientation_ n;
     positionError_ := positionError_ n;
     orientationError_ := orientationError_ n;
     positionAlpha_ := positionAlpha_ n;
     orientationAlpha_ := orientationAlpha_ n;
     enablePointCloudPublishing_ := enablePointCloudPublishing_ n;
     recordableFps_ := recordableFps_ n; mapFrameId_ := mapFrameId_ n;
     poseSub_ := poseSub_ n; pointcloudSubs_ := pointcloudSubs_ n;
     recordableTimer_ := recordableTimer_ n; mapMutex_ := mapMutex_ n;
     clock_ := clock_ n; journal := journal n |}.

Definition set_clock_ (v : Z) (n : Node) : Node :=
  {| map_ := map_ n; gridMap_ := gridMap_ n;
     transformListener_ := transformListener_ n;
     lowpassPosition_ := lowpassPosition_ n;
     lowpassOrientation_ := lowpassOrientation_ n;
     positionError_ := positionError_ n;
     orientationError_ := orientationError_ n;
     positionAlpha_ := positionAlpha_ n;
     orientationAlpha_ := orientationAlpha_ n;
     enablePointCloudPublishing_ := enablePointCloudPublishing_ n;
     recordableFps_ := recordableFps_ n; mapFrameId_ := mapFrameId_ n;
     poseSub_ := poseSub_ n; pointcloudSubs_ := pointcloudSubs_ n;
     recordableTimer_ := recordableTimer_ n; mapMutex_ := mapMutex_ n;
     clock_ := v; journal := journal n |}.

(** ** Callbacks as computations on the node

    A callback takes the node to a new node and either returns a value or
    leaves with an exception. *)

Definition M (A : Type) : Type := Node -> (Exception + A) * Node.

Definition ret {A : Type} (a : A) : M A := fun n => (inr a, n).

Definition bind {A B : Type} (m : M A) (k : A -> M B) : M B :=
  fun n =>
    match m n with
    | (inl e, n') => (inl e, n')
    | (inr a, n') => k a n'
    end.

Notation "x <- m ;; k" := (bind m (fun x => k))
  (at level 61, m at next level, right associativity).
Notation "m ;; k" := (bind m (fun _ => k))
  (at level 61, right associativity).

Definition gets {A : Type} (f : Node -> A) : M A := fun n => (inr (f n), n).
Definition modify (f : Node -> Node) : M unit := fun n => (inr tt, f n).

(** The result of a library call that may throw. *)
Definition lift {A : Type} (r : Exception + A) : M A := fun n => (r, n).

(** One journal entry, stamped with the current holds on the mutex. *)
Definition record (a : Action) : M unit :=
  modify (fun n => set_journal (journal n ++ [(mapMutex_ n, a)]) n).

(** [try { body } catch (tf::TransformException& ex) { handler }] *)
Definition try_catch_TransformException {A : Type}
           (body : M A) (handler : string -> M A) : M A :=
  fun n =>
    match body n with
    | (inl (TransformException what), n') => handler what n'
    | r => r
    end.

(** The lifetime of a [boost::recursive_mutex::scoped_lock]: the mutex is
    released where the lock is unlocked or goes out of scope, also when the
    guarded statements leave with an exception. *)
Definition scoped_lock {A : Type} (guarded : M A) : M A :=
  fun n =>
    let locked := record Lock ;; modify (fun n => set_mapMutex_ (S (mapMutex_ n)) n) in
    let unlock := modify (fun n => set_mapMutex_ (pred (mapMutex_ n)) n) ;; record Unlock in
    match (locked ;; guarded) n with
    | (r, n') => (r, snd (unlock n'))
    end.

Definition ros_Time_now : M Z := gets clock_.

Definition publish (p : Publisher) (m : Message) : M unit :=
  record (Publish p m).

(** [transformListener_.waitForTransform] and [lookupTransform], then
    [poseTFToEigen]. *)
Definition lookupTransform (target source : string) (time : Z) : M Affine3d :=
  listener <- gets transformListener_ ;;
  match listener target source time with
  | TfFound t => ret t
  | TfFailed _ what => lift (inl (TransformException what))
  end.

(** ** The constructor *)

Definition ElevationMappingNode (nh : NodeHandle)
           (listener : string -> string -> Z -> TfAnswer) (now : Z) : Node :=
  let mapFrameId := param (param_map_frame nh) "map" in
  let recordableFps := param (param_recordable_fps nh) (lit 3) in
  {| map_ := map_initialize nh;
     gridMap_ := setFrameId mapFrameId GridMap_empty;
     transformListener_ := listener;
     lowpassPosition_ := V3 (lit 0) (lit 0) (lit 0);
     lowpassOrientation_ := V4 (lit 0) (lit 0) (lit 0) (lit 1);
     positionError_ := lit 0;
     orientationError_ := lit 0;
     positionAlpha_ := param (param_position_lowpass_alpha nh) (lit (2 # 10));
     orientationAlpha_ :=
       param (param_orientation_lowpass_alpha nh) (lit (2 # 10));
     enablePointCloudPublishing_ :=
       param (param_enable_pointcloud_publishing nh) false;
     recordableFps_ := recordableFps;
     mapFrameId_ := mapFrameId;
     poseSub_ := param (param_pose_topic nh) "pose";
     pointcloudSubs_ := param (param_pointcloud_topics nh) ["points"];
     recordableTimer_ :=
       if fgtb recordableFps (lit 0)
       then Some (lit 1 / (recordableFps + lit (1 # 100000)))
       else None;
     mapMutex_ := 0;
     clock_ := now;
     journal := [(0%nat, Log INFO "[ElevationMappingCupy] finish initialization")] |}.

(** ** [publishAsPointCloud] *)

Definition publishAsPointCloud : M unit :=
  record (Cache UseToPointCloud) ;;
  g <- gets gridMap_ ;;
  let msg := toPointCloud g "elevation" in
  publish pointPub_ (PointCloudMessage msg).

(** ** [pointcloudCallback] *)

Definition pointcloudCallback (cloud : PointCloud2) : M unit :=
  start <- ros_Time_now ;;
  let pointCloud := points cloud in
  let sensorFrameId := header_frame_id cloud in
  let timeStamp := header_stamp cloud in
  mapFrameId <- gets mapFrameId_ ;;
  found <- try_catch_TransformException
             (t <- lookupTransform mapFrameId sensorFrameId timeStamp ;;
              ret (Some t))
             (fun what => record (Log ERROR what) ;; ret None) ;;
  match found with
  | None => ret tt
  | Some transformationSensorToMap =>
      positionError <- gets positionError_ ;;
      orientationError <- gets orientationError_ ;;
      record (EngineInput positionError orientationError) ;;
      modify (fun n =>
                set_map_ (map_input pointCloud
                            (rotation transformationSensorToMap)
                            (translation transformationSensorToMap)
                            positionError orientationError (map_ n)) n) ;;
      msg <- scoped_lock
               (record (Cache Refresh) ;;
                modify (fun n =>
                          set_gridMap_ (map_get_grid_map (map_ n) (gridMap_ n)) n) ;;
                record (Cache UseToMessage) ;;
                g <- gets gridMap_ ;;
                lift (toMessage g)) ;;
      stamp <- ros_Time_now ;;
      let msg := set_info_stamp stamp msg in
      publish mapPub_ (GridMapMessage msg) ;;
      publish alivePub_ EmptyMessage ;;
      enabled <- gets enablePointCloudPublishing_ ;;
      (if enabled : bool then publishAsPointCloud else ret tt) ;;
      record (Log INFO_THROTTLE
                "ElevationMap processed a point cloud (%i points) in %f sec.") ;;
      record (Log DEBUG_THROTTLE "positionError: %f ") ;;
      record (Log DEBUG_THROTTLE "orientationError: %f ")
  end.

(** ** [poseCallback] *)

Definition poseCallback (pose : Pose) : M unit :=
  let position := V2 (position_x pose) (position_y pose) in
  record (EngineMoveTo position) ;;
  modify (fun n => set_map_ (map_move_to position (map_ n)) n) ;;
  let position3 := V3 (position_x pose) (position_y pose) (position_z pose) in
  let orientation := V4 (orientation_x pose) (orientation_y pose)
                        (orientation_z pose) (orientation_w pose) in
  modify (fun n =>
            set_lowpassPosition_
              (add3 (scale3 (positionAlpha_ n) position3)
                    (scale3 (lit 1 - positionAlpha_ n) (lowpassPosition_ n))) n) ;;
  modify (fun n =>
            set_lowpassOrientation_
              (add4 (scale4 (orientationAlpha_ n) orientation)
                    (scale4 (lit 1 - orientationAlpha_ n)
                            (lowpassOrientation_ n))) n) ;;
  modify (fun n =>
            set_positionError_ (norm3 (sub3 position3 (lowpassPosition_ n))) n) ;;
  modify (fun n =>
            set_orientationError_
              (norm4 (sub4 orientation (lowpassOrientation_ n))) n).

(** ** [getSubmap] *)

Definition auxiliary_layers : list string :=
  ["horizontal_variance_x"; "horizontal_variance_y"; "horizontal_variance_xy";
   "time"; "color"; "lowest_scan_point"; "sensor_x_at_lowest_scan";
   "sensor_y_at_lowest_scan"; "sensor_z_at_lowest_scan"].

(** Lines 129 to 139: the zero matrix and the nine calls of [subMap.add]. *)
Definition add_auxiliary_layers (subMap : GridMap) : GridMap :=
  let length := length_ subMap in
  let zero := Zero (ftrunc (fst length)) (ftrunc (snd length)) in
  fold_left (fun g layer => add layer (cast_float zero) g)
            auxiliary_layers subMap.

Definition getSubmap (request : GetGridMapRequest) : M (bool * GridMapMsg) :=
  let requestedSubmapPosition :=
    V2 (request_position_x request) (request_position_y request) in
  let requestedSubmapLength :=
    V2 (request_length_x request) (request_length_y request) in
  record (Log DEBUG
    "Elevation submap request: Position x=%f, y=%f, Length x=%f, y=%f.") ;;
  record (Cache UseGetSubmap) ;;
  g <- gets gridMap_ ;;
  let '(subMap, index, isSuccess) :=
    GridMap_getSubmap g requestedSubmapPosition requestedSubmapLength in
  let subMap := add_auxiliary_layers subMap in
  record SubmapToMessage ;;
  response_map <-
    match request_layers request with
    | [] => lift (toMessage subMap)
    | layers => lift (toMessage_layers subMap layers)
    end ;;
  ret (isSuccess, response_map).

(** ** [clearMap] *)

Definition clearMap : M bool :=
  record (Log INFO "Clearing map.") ;;
  record EngineClear ;;
  modify (fun n => set_map_ (map_clear (map_ n)) n) ;;
  ret true.

(** ** [setPublishPoint]: returns the handler's result and [response.success]. *)

Definition setPublishPoint (request_data : bool) : M (bool * bool) :=
  modify (set_enablePointCloudPublishing_ request_data) ;;
  ret (true, true).

(** ** [timerCallback] *)

Definition timerCallback : M unit :=
  record (Cache UseExists) ;;
  g <- gets gridMap_ ;;
  if exists_ g "elevation"
  then
    let layers := ["elevation"] in
    scoped_lock
      (record (Cache UseToMessage) ;;
       g <- gets gridMap_ ;;
       msg <- lift (toMessage_layers g layers) ;;
       publish recordablePub_ (GridMapMessage msg))
  else ret tt.

(** ** The node under the ROS runtime

    What can happen to a running node: a message on a subscription, a
    service call, a tick of the recordable timer, or a change of what
    surrounds it (the clock and the transforms known to the listener).  The
    timer callback runs only if the constructor created the timer.  The
    response of a service goes to its caller; an exception that leaves a
    service handler is reported to the caller by the runtime. *)

Inductive Input :=
| OnPose (pose : Pose)
| OnPointCloud (cloud : PointCloud2)
| OnGetSubmap (request : GetGridMapRequest)
| OnClearMap
| OnSetPublishPoint (data : bool)
| OnTimer
| OnEnvironment (now : Z) (listener : string -> string -> Z -> TfAnswer).

Definition dispatch (n : Node) (i : Input) : Node :=
  match i with
  | OnPose pose => snd (poseCallback pose n)
  | OnPointCloud cloud => snd (pointcloudCallback cloud n)
  | OnGetSubmap request => snd (getSubmap request n)
  | OnClearMap => snd (clearMap n)
  | OnSetPublishPoint data => snd (setPublishPoint data n)
  | OnTimer =>
      match recordableTimer_ n with
      | Some _ => snd (timerCallback n)
      | None => n
      end
  | OnEnvironment now listener =>
      set_clock_ now (set_transformListener_ listener n)
  end.

Definition run (inputs : list Input) (n : Node) : Node :=
  fold_left dispatch inputs n.

(** The journal entries written between two states of the node. *)
Definition since (before after : Node) : list (nat * Action) :=
  skipn (List.length (journal before)) (journal after).

End Coordinator.

(** ** The statements of the specification, as predicates and functions *)

Section Specification.
Context {Sc : Scalar} {O : Outside}.
Local Open Scope scalar_scope.

(** One step of the exponential moving average, as the specification words
    it: [smoothed = alpha*raw + (1-alpha)*smoothed], component by component. *)
Definition ema (alpha raw smoothed : F) : F :=
  alpha * raw + (lit 1 - alpha) * smoothed.

Definition ema3 (alpha : F) (raw smoothed : Vector3d) : Vector3d :=
  V3 (ema alpha (x3 raw) (x3 smoothed)) (ema alpha (y3 raw) (y3 smoothed))
     (ema alpha (z3 raw) (z3 smoothed)).

Definition ema4 (alpha : F) (raw smoothed : Vector4d) : Vector4d :=
  V4 (ema alpha (x4 raw) (x4 smoothed)) (ema alpha (y4 raw) (y4 smoothed))
     (ema alpha (z4 raw) (z4 smoothed)) (ema alpha (w4 raw) (w4 smoothed)).

(** The recurrence [s_k = alpha*raw_k + (1-alpha)*s_(k-1)] over a series of
    raw positions, from the state [s]. *)
Fixpoint ema_recurrence (alpha : F) (raws : list Vector3d) (s : Vector3d)
  : Vector3d :=
  match raws with
  | [] => s
  | raw :: rest => ema_recurrence alpha rest (ema3 alpha raw s)
  end.

Definition raw_position (pose : Pose) : Vector3d :=
  V3 (position_x pose) (position_y pose) (position_z pose).

Definition raw_orientation (pose : Pose) : Vector4d :=
  V4 (orientation_x pose) (orientation_y pose)
     (orientation_z pose) (orientation_w pose).

(** The raw positions of the pose samples among the inputs, oldest first. *)
Fixpoint pose_samples (inputs : list Input) : list Vector3d :=
  match inputs with
  | [] => []
  | OnPose pose :: rest => raw_position pose :: pose_samples rest
  | _ :: rest => pose_samples rest
  end.

Definition is_pose (i : Input) : bool :=
  match i with OnPose _ => true | _ => false end.

(** Journal entries by kind. *)
Definition is_publish (a : Action) : bool :=
  match a with Publish _ _ => true | _ => false end.

Definition is_publish_on (p : Publisher) (a : Action) : bool :=
  match a, p with
  | Publish mapPub_ _, mapPub_ => true
  | Publish recordablePub_ _, recordablePub_ => true
  | Publish pointPub_ _, pointPub_ => true
  | Publish alivePub_ _, alivePub_ => true
  | _, _ => false
  end.

Definition is_engine_input (a : Action) : bool :=
  match a with EngineInput _ _ => true | _ => false end.

(** A read of the cached grid map for publishing or for a service response. *)
Definition reads_cache (a : Action) : bool :=
  match a with
  | Cache UseToMessage | Cache UseToPointCloud
  | Cache UseExists | Cache UseGetSubmap => true
  | _ => false
  end.

(** A conversion of a map to a message. *)
Definition serializes (a : Action) : bool :=
  match a with
  | Cache UseToMessage | Cache UseToPointCloud | SubmapToMessage => true
  | _ => false
  end.

(** "Every read of the cached map occurs while the lock is held." *)
Definition reads_under_lock (j : list (nat * Action)) : Prop :=
  forall d a, In (d, a) j -> reads_cache a = true -> (0 < d)%nat.

(** "Serialization and publish happen outside the lock." *)
Definition converts_and_publishes_unlocked (j : list (nat * Action)) : Prop :=
  forall d a, In (d, a) j ->
              serializes a = true \/ is_publish a = true -> d = 0%nat.

(** A matrix all of whose coefficients are the [float] zero. *)
Definition zero_filled (m : Matrix cell) : Prop :=
  Forall (fun c => c = to_cell (lit 0)) (coeffs m).

(** The layers of an answer of the submap handler, each with its numbers of
    rows and columns; [None] when the handler raised. *)
Definition layer_dimensions (answer : Exception + bool * GridMapMsg)
  : option (list (string * (Z * Z))) :=
  match answer with
  | inr (_, msg) =>
      Some (map (fun lm => (fst lm, (rows (snd lm), cols (snd lm))))
                (combine (msg_layers msg) (msg_data msg)))
  | inl _ => None
  end.

(** The layers of a response with their data. *)
Definition response_layers (msg : GridMapMsg) : list (string * Matrix cell) :=
  combine (msg_layers msg) (msg_data msg).

(** The entries a successful scan adds to the journal. *)
Definition scan_entries (k : nat) (pe oe : F) (msg : GridMapMsg)
           (points_msg : option PointCloud2Msg) : list (nat * Action) :=
  [(k, EngineInput pe oe); (k, Lock); (S k, Cache Refresh);
   (S k, Cache UseToMessage); (k, Unlock);
   (k, Publish mapPub_ (GridMapMessage msg));
   (k, Publish alivePub_ EmptyMessage)]
  ++ match points_msg with
     | Some m => [(k, Cache UseToPointCloud);
                  (k, Publish pointPub_ (PointCloudMessage m))]
     | None => []
     end
  ++ [(k, Log INFO_THROTTLE
             "ElevationMap processed a point cloud (%i points) in %f sec."%string);
      (k, Log DEBUG_THROTTLE "positionError: %f "%string);
      (k, Log DEBUG_THROTTLE "orientationError: %f "%string)].

End Specification.

(** ** A small engine, for concrete runs *)

Section SmallEngine.
Context {Sc : Scalar}.
Local Open Scope string_scope.

(** Modelled from the spec: the map-update engine behind
    [ElevationMappingWrapper] (the wrapper and the core it embeds are not
    part of this file), of which the specification gives the interface only:
    [input] fuses a scan, [moveTo] recentres the map, [getGridMap] hands out
    the layers and [clear] resets the engine to empty.  This engine keeps
    the centre of the map and the height it saw last; its map has 4 by 4
    cells of half a metre, all at that height, or at zero when empty. *)
Record SmallEngine := {
  centre : Vector2d;
  height : option cell
}.

Definition filled (r c : Z) (v : cell) : Matrix cell :=
  {| rows := r; cols := c; coeffs := repeat v (Z.to_nat (r * c)) |}.

Definition small_input (pts : list (cell * cell * cell)) (e : SmallEngine)
  : SmallEngine :=
  match rev pts with
  | [] => e
  | (_, _, z) :: _ => {| centre := centre e; height := Some z |}
  end.

Definition small_get_grid_map (e : SmallEngine) (g : GridMap) : GridMap :=
  let h := match height e with Some z => z | None => to_cell (lit 0) end in
  add "elevation" (filled 4 4 h)
      {| frameId := frameId g; timestamp := timestamp g;
         layerData := layerData g; basicLayers := basicLayers g;
         length_ := (lit 2, lit 2); resolution := lit (1 # 2);
         position := (x2 (centre e), y2 (centre e));
         size_ := (4, 4)%Z; startIndex := (0, 0)%Z |}.

(** The answer of [GridMap::getSubmap] to a request for the rectangle of
    the whole map: the map itself, and success.  It stands for the library
    in the concrete runs below, which all request the whole map. *)
Definition whole_map (g : GridMap) (position length : Vector2d)
  : GridMap * (Z * Z) * bool :=
  (g, (0, 0)%Z, true).

#[export] Instance SmallOutside : Outside := {|
  engine := SmallEngine;
  map_initialize := fun _ => {| centre := V2 (lit 0) (lit 0); height := None |};
  map_input := fun pts _ _ _ _ e => small_input pts e;
  map_move_to := fun p e => {| centre := p; height := height e |};
  map_get_grid_map := small_get_grid_map;
  map_clear := fun e => {| centre := centre e; height := None |};
  GridMap_getSubmap := whole_map;
  PointCloud2Msg := list cell;
  toPointCloud := fun g layer =>
    match lookup_layer layer (layerData g) with
    | Some m => coeffs m
    | None => []
    end
|}.

End SmallEngine.

(** ** A concrete node, for either carrier *)

Module Demo.
Section Demo.
Context {Sc : Scalar}.
Local Open Scope string_scope.

(** No parameter set: every default applies. *)
Definition nh : NodeHandle :=
  {| param_pointcloud_topics := None; param_pose_topic := None;
     param_map_frame := None; param_position_lowpass_alpha := None;
     param_orientation_lowpass_alpha := None; param_recordable_fps := None;
     param_enable_pointcloud_publishing := None |}.

(** The sensor one metre above the origin of the map, axes aligned. *)
Definition sensor_pose : Affine3d :=
  {| rotation := (V3 (lit 1) (lit 0) (lit 0), V3 (lit 0) (lit 1) (lit 0),
                  V3 (lit 0) (lit 0) (lit 1));
     translation := V3 (lit 0) (lit 0) (lit 1) |}.

Definition listener_ok (target source : string) (time : Z) : TfAnswer :=
  TfFound sensor_pose.

Definition listener_failing (target source : string) (time : Z) : TfAnswer :=
  TfFailed ExtrapolationException
           "Lookup would require extrapolation into the future.".

(** A scan of one point, 1.5 m high. *)
Definition cloud : PointCloud2 :=
  {| header_frame_id := "lidar"; header_stamp := 10%Z;
     points := [(to_cell (lit 1), to_cell (lit 2), to_cell (lit (3 # 2)))] |}.

(** A pose at (1,2,3), turned half a turn about the x axis. *)
Definition pose : Pose :=
  {| position_x := lit 1; position_y := lit 2; position_z := lit 3;
     orientation_x := lit 1; orientation_y := lit 0; orientation_z := lit 0;
     orientation_w := lit 0 |}.

(** A request for the whole 2 m by 2 m map around the origin. *)
Definition request (layers : list string) : GetGridMapRequest :=
  {| request_position_x := lit 0; request_position_y := lit 0;
     request_length_x := lit 2; request_length_y := lit 2;
     request_layers := layers |}.

(** The node after construction, with a listener that knows the sensor
    and with one that does not, and after one scan was fused. *)
Definition started : Node (O := SmallOutside) :=
  ElevationMappingNode nh listener_ok 0%Z.

Definition started_blind : Node (O := SmallOutside) :=
  ElevationMappingNode nh listener_failing 0%Z.

Definition scanned : Node (O := SmallOutside) :=
  run [OnPointCloud cloud] started.

(** The node with its cache refreshed from the engine. *)
Definition refreshed (n : Node (O := SmallOutside)) : Node :=
  set_gridMap_ (map_get_grid_map (map_ n) (gridMap_ n)) n.

End Demo.
End Demo.

(** Whether the first layer of an answer is at height zero. *)
Definition first_layer_is_flat (answer : Exception + bool * GridMapMsg (Sc := Binary64))
  : option bool :=
  match answer with
  | inr (_, msg) =>
      match msg_data msg with
      | m :: _ =>
          match coeffs m with
          | c :: _ => Some (PrimFloat.eqb c PrimFloat.zero)
          | [] => None
          end
      | [] => None
      end
  | inl _ => None
  end.


(** ** Further statements about runs and journals *)

Section FurtherStatements.
Context {Sc : Scalar} {O : Outside}.

Definition same_publisher (p q : Publisher) : bool :=
  match p, q with
  | mapPub_, mapPub_ | recordablePub_, recordablePub_
  | pointPub_, pointPub_ | alivePub_, alivePub_ => true
  | _, _ => false
  end.

(** The messages published on a publisher, oldest first. *)
Fixpoint published (p : Publisher) (j : list (nat * Action)) : list Message :=
  match j with
  | [] => []
  | (_, Publish q m) :: rest =>
      if same_publisher p q then m :: published p rest else published p rest
  | _ :: rest => published p rest
  end.

(** The number of journal entries of a kind. *)
Definition count (kind : Action -> bool) (j : list (nat * Action)) : nat :=
  List.length (filter (fun e => kind (snd e)) j).

(** Whether the lookup for a cloud would fail in this state of the node. *)
Definition lookup_fails (n : Node) (cloud : PointCloud2) : bool :=
  match transformListener_ n (mapFrameId_ n)
                           (header_frame_id cloud) (header_stamp cloud) with
  | TfFound _ => false
  | TfFailed _ _ => true
  end.

(** A run in which the lookup fails for every point cloud that arrives. *)
Fixpoint no_scan_succeeds (inputs : list Input) (n : Node) : bool :=
  match inputs with
  | [] => true
  | i :: rest =>
      match i with
      | OnPointCloud cloud => lookup_fails n cloud
      | _ => true
      end && no_scan_succeeds rest (dispatch n i)
  end.

(** Where the mutex stands at each kind of effect of a node that starts
    with the mutex free: the lock is taken and released from outside any
    hold, the cached map is written and the throttled message published
    inside one hold, every other message published outside. *)
Definition lock_discipline (e : nat * Action) : bool :=
  match snd e with
  | Lock | Unlock => Nat.eqb (fst e) 0
  | Cache Refresh => Nat.eqb (fst e) 1
  | Publish recordablePub_ _ => Nat.eqb (fst e) 1
  | Publish _ _ => Nat.eqb (fst e) 0
  | _ => true
  end.

(** The geometry and frame of a message are those of a map. *)
Definition same_geometry (msg : GridMapMsg) (g : GridMap) : Prop :=
  info_frame_id msg = frameId g /\
  info_resolution msg = resolution g /\
  (info_length_x msg, info_length_y msg) = length_ g /\
  (info_position_x msg, info_position_y msg) = position g /\
  (outer_start_index msg, inner_start_index msg) = startIndex g /\
  msg_basic_layers msg = basicLayers g.

(** Equality of all members of the node but the journal. *)
Definition same_members (n n' : Node) : Prop :=
  map_ n' = map_ n /\ gridMap_ n' = gridMap_ n /\
  transformListener_ n' = transformListener_ n /\
  lowpassPosition_ n' = lowpassPosition_ n /\
  lowpassOrientation_ n' = lowpassOrientation_ n /\
  positionError_ n' = positionError_ n /\
  orientationError_ n' = orientationError_ n /\
  positionAlpha_ n' = positionAlpha_ n /\
  orientationAlpha_ n' = orientationAlpha_ n /\
  enablePointCloudPublishing_ n' = enablePointCloudPublishing_ n /\
  recordableFps_ n' = recordableFps_ n /\
  mapFrameId_ n' = mapFrameId_ n /\
  recordableTimer_ n' = recordableTimer_ n /\
  mapMutex_ n' = mapMutex_ n /\
  clock_ n' = clock_ n.

End FurtherStatements.

(** ** More concrete inputs, for either carrier *)

Module MoreDemo.
Section MoreDemo.
Context {Sc : Scalar}.
Local Open Scope string_scope.

(** Both smoothing factors set to 1. *)
Definition unfiltered_nh : NodeHandle :=
  {| param_pointcloud_topics := None; param_pose_topic := None;
     param_map_frame := None; param_position_lowpass_alpha := Some (lit 1);
     param_orientation_lowpass_alpha := Some (lit 1);
     param_recordable_fps := None;
     param_enable_pointcloud_publishing := None |}.

Definition unfiltered : Node (O := SmallOutside) :=
  ElevationMappingNode unfiltered_nh Demo.listener_ok 0%Z.

(** A pose at the origin with the identity orientation. *)
Definition pose_at_rest : Pose :=
  {| position_x := lit 0; position_y := lit 0; position_z := lit 0;
     orientation_x := lit 0; orientation_y := lit 0; orientation_z := lit 0;
     orientation_w := lit 1 |}.

(** What reaches a node whose listener knows no transform. *)
Definition blind_inputs : list Input :=
  [OnPose Demo.pose; OnPointCloud Demo.cloud; OnTimer;
   OnGetSubmap (Demo.request []); OnSetPublishPoint true;
   OnPointCloud Demo.cloud; OnClearMap; OnTimer].

End MoreDemo.
End MoreDemo.

(** * Properties *)

Unset Implicit Arguments.

(** ** The grid-map library *)

Section LibraryFacts.
Context {Sc : Scalar}.

Lemma lookup_layer_In (l : string) (d : list (string * Matrix cell)) :
  In l (map fst d) <-> lookup_layer l d <> None.
Proof.
  induction d as [|[k m] d IH]; simpl.
  - split; [intros [] | congruence].
  - destruct (String.eqb_spec k l) as [->|Hne].
    + split; [discriminate | auto].
    + rewrite <- IH. split; [intros [E|I]; [contradiction | exact I] | auto].
Qed.

Lemma get_all_present (g : GridMap) (ls : list string) :
  Forall (fun l => In l (getLayers g)) ls ->
  exists ms, get_all g ls = inr ms /\
             Forall2 (fun l m => lookup_layer l (layerData g) = Some m) ls ms.
Proof.
  induction 1 as [|l ls Hl _ IH]; simpl.
  - exists []. split; [reflexivity | constructor].
  - destruct IH as (ms & -> & Hms).
    apply lookup_layer_In in Hl. unfold get.
    destruct (lookup_layer l (layerData g)) as [m|] eqn:E; [|congruence].
    exists (m :: ms). split; [reflexivity | constructor; assumption].
Qed.


(** Converting a map with all its layers never throws. *)
Lemma toMessage_total (g : GridMap) :
  exists msg, toMessage g = inr msg /\ msg_layers msg = getLayers g.
Proof.
  unfold toMessage, toMessage_layers.
  destruct (get_all_present g (getLayers g)) as (ms & -> & _).
  - apply Forall_forall. auto.
  - eexists. split; reflexivity.
Qed.

(** [add] stores the given matrix under the given name and leaves the
    other layers alone. *)
Lemma lookup_replace_layer (l k : string) (m : Matrix cell)
      (d : list (string * Matrix cell)) :
  lookup_layer k (replace_layer l m d) =
    if String.eqb l k
    then match lookup_layer l d with Some _ => Some m | None => None end
    else lookup_layer k d.
Proof.
  induction d as [|[k' m'] d IH]; simpl.
  - destruct (String.eqb l k); reflexivity.
  - destruct (String.eqb_spec k' l) as [->|Hne]; simpl.
    + destruct (String.eqb_spec l k) as [->|Hlk]; reflexivity.
    + rewrite IH.
      destruct (String.eqb_spec l k) as [<-|Hlk].
      * destruct (String.eqb_spec k' l); [contradiction | reflexivity].
      * reflexivity.
Qed.

Lemma lookup_app_layer (k : string) (d d' : list (string * Matrix cell)) :
  lookup_layer k (d ++ d') =
    match lookup_layer k d with Some m => Some m | None => lookup_layer k d' end.
Proof.
  induction d as [|[k' m'] d IH]; simpl; [reflexivity|].
  destruct (String.eqb k' k); [reflexivity | exact IH].
Qed.

Lemma lookup_add (l k : string) (m : Matrix cell) (g : GridMap) :
  lookup_layer k (layerData (add l m g)) =
    if String.eqb l k then Some m else lookup_layer k (layerData g).
Proof.
  unfold add, exists_.
  destruct (lookup_layer l (layerData g)) as [m0|] eqn:E; simpl.
  - rewrite lookup_replace_layer, E. reflexivity.
  - rewrite lookup_app_layer. simpl.
    destruct (String.eqb_spec l k) as [<-|Hne].
    + rewrite E. reflexivity.
    + destruct (lookup_layer k (layerData g)); reflexivity.
Qed.

(** Adding the same matrix under each name of a list. *)
Lemma lookup_fold_add (ls : list string) (m : Matrix cell) (k : string)
      (g : GridMap) :
  lookup_layer k (layerData (fold_left (fun g l => add l m g) ls g)) =
    if existsb (fun l => String.eqb l k) ls
    then Some m else lookup_layer k (layerData g).
Proof.
  revert g. induction ls as [|l ls IH]; intros g; simpl.
  - reflexivity.
  - rewrite IH, lookup_add.
    destruct (String.eqb l k); simpl;
      destruct (existsb (fun l0 => String.eqb l0 k) ls); reflexivity.
Qed.

Lemma existsb_eqb_In (k : string) (ls : list string) :
  In k ls -> existsb (fun l => String.eqb l k) ls = true.
Proof.
  intros Hin. apply existsb_exists. exists k.
  split; [exact Hin | apply String.eqb_refl].
Qed.

(** The nine auxiliary layers of the extended submap: each is the zero
    matrix built from the truncated side lengths. *)
Lemma auxiliary_layer_data (subMap : GridMap) (l : string) :
  In l auxiliary_layers ->
  lookup_layer l (layerData (add_auxiliary_layers subMap)) =
    Some (cast_float (Zero (ftrunc (fst (length_ subMap)))
                           (ftrunc (snd (length_ subMap))))).
Proof.
  intros Hin. unfold add_auxiliary_layers.
  rewrite lookup_fold_add, (existsb_eqb_In l auxiliary_layers Hin).
  reflexivity.
Qed.



Lemma zero_matrix_zero_filled (r c : Z) : zero_filled (cast_float (Zero r c)).
Proof.
  unfold zero_filled, cast_float, Zero; simpl.
  apply Forall_forall. intros x Hx.
  apply in_map_iff in Hx. destruct Hx as (y & <- & Hy).
  apply repeat_spec in Hy. subst y. reflexivity.
Qed.

Lemma Forall2_combine {A B : Type} (P : A -> B -> Prop)
      (xs : list A) (ys : list B) (x : A) (y : B) :
  Forall2 P xs ys -> In (x, y) (combine xs ys) -> P x y.
Proof.
  induction 1 as [|a b xs ys Hab _ IH]; simpl; [intros []|].
  intros [E|Hin]; [injection E as <- <-; exact Hab | auto].
Qed.

Lemma get_all_inr (g : GridMap) (ls : list string) (ms : list (Matrix cell)) :
  get_all g ls = inr ms ->
  Forall2 (fun l m => lookup_layer l (layerData g) = Some m) ls ms.
Proof.
  revert ms. induction ls as [|l ls IH]; simpl; intros ms E.
  - injection E as <-. constructor.
  - unfold get in E.
    destruct (lookup_layer l (layerData g)) as [m|] eqn:El; [|discriminate].
    destruct (get_all g ls) as [e|ms']; [discriminate|].
    injection E as <-. constructor; auto.
Qed.

(** A converted map lists the requested layers, each with its matrix. *)
Lemma toMessage_layers_inr (g : GridMap) (ls : list string) (msg : GridMapMsg) :
  toMessage_layers g ls = inr msg ->
  msg_layers msg = ls /\
  Forall2 (fun l m => lookup_layer l (layerData g) = Some m) ls (msg_data msg).
Proof.
  unfold toMessage_layers. intros E.
  destruct (get_all g ls) as [e|ms] eqn:Eg; [discriminate|].
  injection E as <-. simpl. split; [reflexivity | apply get_all_inr; exact Eg].
Qed.

End LibraryFacts.

(** ** The callbacks, one at a time *)

Section CallbackFacts.
Context {Sc : Scalar} {O : Outside}.
Local Open Scope string_scope.
Local Open Scope list_scope.

Lemma since_app (n n' : Node) (new : list (nat * Action)) :
  journal n' = journal n ++ new -> since n n' = new.
Proof.
  intros E. unfold since. rewrite E.
  rewrite skipn_app, skipn_all, Nat.sub_diag. reflexivity.
Qed.

(** Evaluation of a callback on a node given by its members. *)
Ltac run_callback :=
  cbv beta iota zeta delta
    [bind ret gets modify lift record publish ros_Time_now
     try_catch_TransformException scoped_lock lookupTransform
     publishAsPointCloud
     pointcloudCallback poseCallback getSubmap clearMap setPublishPoint
     timerCallback dispatch
     set_map_ set_gridMap_ set_lowpassPosition_ set_lowpassOrientation_
     set_positionError_ set_orientationError_
     set_enablePointCloudPublishing_ set_mapMutex_ set_journal
     set_transformListener_ set_clock_
     map_ gridMap_ transformListener_ lowpassPosition_ lowpassOrientation_
     positionError_ orientationError_ positionAlpha_ orientationAlpha_
     enablePointCloudPublishing_ recordableFps_ mapFrameId_ poseSub_
     pointcloudSubs_ recordableTimer_ mapMutex_ clock_ journal
     fst snd pred] in *.

(** The point-cloud callback when the lookup fails. *)
Lemma pointcloudCallback_failure
      (n : Node) (cloud : PointCloud2) (kind : TfError) (what : string) :
  transformListener_ n (mapFrameId_ n)
                     (header_frame_id cloud) (header_stamp cloud)
  = TfFailed kind what ->
  pointcloudCallback cloud n =
    (inr tt, set_journal (journal n ++ [(mapMutex_ n, Log ERROR what)]) n).
Proof.
  intros Hfail. destruct n as [e g tf lp lo pe oe pa oa en fps fid ps pcs tm mx ck j]. run_callback.
  rewrite Hfail. reflexivity.
Qed.

(** The point-cloud callback when the lookup succeeds. *)
Lemma pointcloudCallback_success
      (n : Node) (cloud : PointCloud2) (t : Affine3d) :
  transformListener_ n (mapFrameId_ n)
                     (header_frame_id cloud) (header_stamp cloud)
  = TfFound t ->
  let fused := map_input (points cloud) (rotation t) (translation t)
                         (positionError_ n) (orientationError_ n) (map_ n) in
  let snapshot := map_get_grid_map fused (gridMap_ n) in
  exists msg,
    toMessage snapshot = inr msg /\
    pointcloudCallback cloud n =
      (inr tt,
       set_journal
         (journal n ++
          scan_entries (mapMutex_ n) (positionError_ n) (orientationError_ n)
            (set_info_stamp (clock_ n) msg)
            (if enablePointCloudPublishing_ n
             then Some (toPointCloud snapshot "elevation") else None))
         (set_gridMap_ snapshot (set_map_ fused n))).
Proof.
  intros Hok fused snapshot.
  destruct (toMessage_total snapshot) as (msg & Hmsg & _).
  exists msg. split; [exact Hmsg|].
  revert Hmsg. subst fused snapshot. destruct n as [e g tf lp lo pe oe pa oa en fps fid ps pcs tm mx ck j]. run_callback.
  intros Hmsg. rewrite Hok, Hmsg.
  unfold scan_entries.
  destruct en; repeat rewrite <- app_assoc;
    reflexivity.
Qed.

(** The pose callback. *)
Lemma poseCallback_run (n : Node) (pose : Pose) :
  let smoothed_position :=
    ema3 (positionAlpha_ n) (raw_position pose) (lowpassPosition_ n) in
  let smoothed_orientation :=
    ema4 (orientationAlpha_ n) (raw_orientation pose) (lowpassOrientation_ n) in
  let position := V2 (position_x pose) (position_y pose) in
  poseCallback pose n =
    (inr tt,
     set_orientationError_
       (norm4 (sub4 (raw_orientation pose) smoothed_orientation))
       (set_positionError_
          (norm3 (sub3 (raw_position pose) smoothed_position))
          (set_lowpassOrientation_ smoothed_orientation
             (set_lowpassPosition_ smoothed_position
                (set_map_ (map_move_to position (map_ n))
                   (set_journal
                      (journal n ++ [(mapMutex_ n, EngineMoveTo position)])
                      n)))))).
Proof.
  destruct n as [e g tf lp lo pe oe pa oa en fps fid ps pcs tm mx ck j].
  reflexivity.
Qed.

(** The timer callback when the cached map has the elevation layer. *)
Lemma timerCallback_elevation (n : Node) :
  exists_ (gridMap_ n) "elevation" = true ->
  exists msg,
    toMessage_layers (gridMap_ n) ["elevation"] = inr msg /\
    timerCallback n =
      (inr tt,
       set_journal
         (journal n ++
          [(mapMutex_ n, Cache UseExists); (mapMutex_ n, Lock);
           (S (mapMutex_ n), Cache UseToMessage);
           (S (mapMutex_ n),
            Publish recordablePub_ (GridMapMessage msg));
           (mapMutex_ n, Unlock)]) n).
Proof.
  intros Hex.
  destruct n as [e g tf lp lo pe oe pa oa en fps fid ps pcs tm mx ck j].
  run_callback. rewrite Hex.
  unfold exists_ in Hex. unfold toMessage_layers, get_all, get.
  destruct (lookup_layer "elevation" (layerData g)) as [m|]; [|discriminate].
  eexists. split; [reflexivity|].
  repeat rewrite <- app_assoc. reflexivity.
Qed.

(** The timer callback when it has not. *)
Lemma timerCallback_no_elevation (n : Node) :
  exists_ (gridMap_ n) "elevation" = false ->
  timerCallback n =
    (inr tt, set_journal (journal n ++ [(mapMutex_ n, Cache UseExists)]) n).
Proof.
  intros Hex.
  destruct n as [e g tf lp lo pe oe pa oa en fps fid ps pcs tm mx ck j].
  run_callback. rewrite Hex. reflexivity.
Qed.

(** The submap handler: what it returns is decided by the extraction and
    by the conversion of the extended submap; the node only gains journal
    entries. *)
Lemma getSubmap_run (n : Node) (request : GetGridMapRequest) :
  let '(subMap, _, isSuccess) :=
    GridMap_getSubmap (gridMap_ n)
      (V2 (request_position_x request) (request_position_y request))
      (V2 (request_length_x request) (request_length_y request)) in
  let full := add_auxiliary_layers subMap in
  let requested :=
    match request_layers request with [] => getLayers full | ls => ls end in
  getSubmap request n =
    (match toMessage_layers full requested with
     | inl e => inl e
     | inr msg => inr (isSuccess, msg)
     end,
     set_journal
       (journal n ++
        [(mapMutex_ n,
          Log DEBUG
            "Elevation submap request: Position x=%f, y=%f, Length x=%f, y=%f.");
         (mapMutex_ n, Cache UseGetSubmap); (mapMutex_ n, SubmapToMessage)])
       n).
Proof.
  destruct n as [e g tf lp lo pe oe pa oa en fps fid ps pcs tm mx ck j].
  run_callback.
  destruct (GridMap_getSubmap g _ _) as [[subMap index] isSuccess].
  unfold toMessage.
  destruct (request_layers request) as [|l ls];
    repeat rewrite <- app_assoc;
    match goal with
    | |- context [toMessage_layers ?g ?ls] => destruct (toMessage_layers g ls)
    end; reflexivity.
Qed.

(** C1: a point-cloud callback whose transform lookup fails, whatever the
    failure, returns normally without calling the engine's [input], leaves
    the engine and the cached grid map as they were, and writes nothing but
    the error log: no map message, no heartbeat, no point cloud. *)
Theorem pointcloudCallback_lookup_failure
        (n : Node) (cloud : PointCloud2) (kind : TfError) (what : string) :
  transformListener_ n (mapFrameId_ n)
                     (header_frame_id cloud) (header_stamp cloud)
  = TfFailed kind what ->
  let (result, n') := pointcloudCallback cloud n in
  result = inr tt /\
  map_ n' = map_ n /\
  gridMap_ n' = gridMap_ n /\
  since n n' = [(mapMutex_ n, Log ERROR what)] /\
  Forall (fun e => is_engine_input (snd e) = false /\
                   is_publish (snd e) = false) (since n n').
Proof.
  intros Hfail. rewrite (pointcloudCallback_failure n cloud kind what Hfail).
  assert (Hs : since n (set_journal (journal n ++ [(mapMutex_ n, Log ERROR what)]) n)
               = [(mapMutex_ n, Log ERROR what)])
    by (apply since_app; reflexivity).
  rewrite Hs. repeat split; auto.
Qed.

(** C10: the clear-map handler forwards to the engine's [clear] and returns
    true; the cached grid map, the smoothed position and orientation, the
    two uncertainty scalars, the republishing flag and every other member
    of the coordinator keep their values. *)
Theorem clearMap_only_clears_engine (n : Node) :
  let (result, n') := clearMap n in
  result = inr true /\
  map_ n' = map_clear (map_ n) /\
  since n n' = [(mapMutex_ n, Log INFO "Clearing map.");
                (mapMutex_ n, EngineClear)] /\
  gridMap_ n' = gridMap_ n /\
  lowpassPosition_ n' = lowpassPosition_ n /\
  lowpassOrientation_ n' = lowpassOrientation_ n /\
  positionError_ n' = positionError_ n /\
  orientationError_ n' = orientationError_ n /\
  enablePointCloudPublishing_ n' = enablePointCloudPublishing_ n /\
  positionAlpha_ n' = positionAlpha_ n /\
  orientationAlpha_ n' = orientationAlpha_ n /\
  recordableFps_ n' = recordableFps_ n /\
  recordableTimer_ n' = recordableTimer_ n /\
  mapFrameId_ n' = mapFrameId_ n /\
  mapMutex_ n' = mapMutex_ n.
Proof.
  destruct n as [e g tf lp lo pe oe pa oa en fps fid ps pcs tm mx ck j].
  unfold since. run_callback.
  rewrite <- app_assoc, skipn_app, skipn_all, Nat.sub_diag.
  repeat split.
Qed.


(** ** Runs of the node *)

(** Case analysis on the innermost scrutinee left in the goal. *)
Ltac split_matches :=
  repeat match goal with
         | |- context [match ?x with _ => _ end] =>
             lazymatch x with
             | context [match _ with _ => _ end] => fail
             | _ => destruct x
             end
         end.

(** No input changes the configuration of the node. *)
Lemma dispatch_configuration (n : Node) (i : Input) :
  positionAlpha_ (dispatch n i) = positionAlpha_ n /\
  orientationAlpha_ (dispatch n i) = orientationAlpha_ n /\
  recordableTimer_ (dispatch n i) = recordableTimer_ n.
Proof.
  destruct n as [e g tf lp lo pe oe pa oa en fps fid ps pcs tm mx ck j].
  destruct i; run_callback; split_matches; repeat split.
Qed.

(** Only a pose sample changes the pose filter. *)
Lemma dispatch_keeps_filter (n : Node) (i : Input) :
  is_pose i = false ->
  lowpassPosition_ (dispatch n i) = lowpassPosition_ n /\
  lowpassOrientation_ (dispatch n i) = lowpassOrientation_ n /\
  positionError_ (dispatch n i) = positionError_ n /\
  orientationError_ (dispatch n i) = orientationError_ n.
Proof.
  destruct n as [e g tf lp lo pe oe pa oa en fps fid ps pcs tm mx ck j].
  destruct i; try discriminate; intros _;
    run_callback; split_matches; repeat split.
Qed.

Lemma dispatch_pose (n : Node) (pose : Pose) :
  lowpassPosition_ (dispatch n (OnPose pose)) =
    ema3 (positionAlpha_ n) (raw_position pose) (lowpassPosition_ n) /\
  lowpassOrientation_ (dispatch n (OnPose pose)) =
    ema4 (orientationAlpha_ n) (raw_orientation pose) (lowpassOrientation_ n) /\
  orientationError_ (dispatch n (OnPose pose)) =
    norm4 (sub4 (raw_orientation pose)
                (ema4 (orientationAlpha_ n) (raw_orientation pose)
                      (lowpassOrientation_ n))).
Proof.
  destruct n as [e g tf lp lo pe oe pa oa en fps fid ps pcs tm mx ck j].
  repeat split.
Qed.

Lemma run_configuration (inputs : list Input) (n : Node) :
  positionAlpha_ (run inputs n) = positionAlpha_ n /\
  orientationAlpha_ (run inputs n) = orientationAlpha_ n /\
  recordableTimer_ (run inputs n) = recordableTimer_ n.
Proof.
  revert n. induction inputs as [|i inputs IH]; intros n; simpl.
  - repeat split.
  - destruct (IH (dispatch n i)) as (-> & -> & ->).
    apply dispatch_configuration.
Qed.

Lemma run_keeps_filter (inputs : list Input) (n : Node) :
  pose_samples inputs = [] ->
  lowpassOrientation_ (run inputs n) = lowpassOrientation_ n /\
  lowpassPosition_ (run inputs n) = lowpassPosition_ n.
Proof.
  revert n. induction inputs as [|i inputs IH]; intros n Hno; simpl.
  - split; reflexivity.
  - assert (Hi : is_pose i = false /\ pose_samples inputs = [])
      by (destruct i; simpl in Hno; try discriminate; split; auto).
    destruct Hi as [Hi Hrest].
    destruct (IH (dispatch n i) Hrest) as (-> & ->).
    destruct (dispatch_keeps_filter n i Hi) as (-> & -> & _). split; reflexivity.
Qed.

Lemma run_app (xs ys : list Input) (n : Node) :
  run (xs ++ ys) n = run ys (run xs n).
Proof. apply fold_left_app. Qed.

(** The smoothed position follows the recurrence over the pose samples of
    the run, whatever else happens in between. *)
Lemma run_lowpassPosition (inputs : list Input) (n : Node) :
  lowpassPosition_ (run inputs n) =
    ema_recurrence (positionAlpha_ n) (pose_samples inputs) (lowpassPosition_ n).
Proof.
  revert n. induction inputs as [|i inputs IH]; intros n; simpl.
  - reflexivity.
  - rewrite IH.
    destruct (dispatch_configuration n i) as (-> & _ & _).
    destruct i; simpl pose_samples;
      try match goal with
          | |- context [dispatch n ?i] =>
              destruct (dispatch_keeps_filter n i eq_refl) as (-> & _);
              reflexivity
          end.
    destruct (dispatch_pose n pose) as (-> & _). reflexivity.
Qed.

(** C7: after any run of the constructed node, the smoothed position is the
    recurrence [s_k = alpha*raw_k + (1-alpha)*s_(k-1)] applied once per pose
    sample of the run, in order, from the initial state (0,0,0). *)
Theorem lowpassPosition_is_recurrence
        (nh : NodeHandle) (listener : string -> string -> Z -> TfAnswer)
        (now : Z) (inputs : list Input) :
  let started := ElevationMappingNode nh listener now in
  lowpassPosition_ (run inputs started) =
    ema_recurrence (positionAlpha_ started) (pose_samples inputs)
                   (V3 (lit 0) (lit 0) (lit 0)).
Proof. intros started. apply run_lowpassPosition. Qed.

(** Every input extends the journal; a node without timer publishes
    nothing on the recordable channel. *)
Lemma dispatch_journal (n : Node) (i : Input) :
  exists new,
    journal (dispatch n i) = journal n ++ new /\
    (recordableTimer_ n = None ->
     Forall (fun e => is_publish_on recordablePub_ (snd e) = false) new).
Proof.
  destruct n as [e g tf lp lo pe oe pa oa en fps fid ps pcs tm mx ck j].
  destruct i; run_callback; split_matches; repeat rewrite <- app_assoc;
    first [ eexists; split;
            [ reflexivity
            | intros Htm; try discriminate Htm; repeat constructor ]
          | exists []; split;
            [ symmetry; apply app_nil_r | intros _; constructor ] ].
Qed.

Lemma run_journal (inputs : list Input) (n : Node) :
  recordableTimer_ n = None ->
  exists new,
    journal (run inputs n) = journal n ++ new /\
    Forall (fun e => is_publish_on recordablePub_ (snd e) = false) new.
Proof.
  revert n. induction inputs as [|i inputs IH]; intros n Htm; simpl.
  - exists []. split; [symmetry; apply app_nil_r | constructor].
  - destruct (dispatch_journal n i) as (new1 & E1 & H1).
    destruct (dispatch_configuration n i) as (_ & _ & Etm).
    destruct (IH (dispatch n i)) as (new2 & E2 & H2); [congruence|].
    exists (new1 ++ new2). split.
    + rewrite E2, E1, app_assoc. reflexivity.
    + apply Forall_app. split; auto.
Qed.

(** The timer exists exactly when the configured rate compares greater
    than zero, and then its period is [1.0 / (rate + 0.00001)]. *)
Lemma constructor_timer
      (nh : NodeHandle) (listener : string -> string -> Z -> TfAnswer)
      (now : Z) :
  let started := ElevationMappingNode nh listener now in
  recordableFps_ started = param (param_recordable_fps nh) (lit 3) /\
  recordableTimer_ started =
    if fgtb (recordableFps_ started) (lit 0)
    then Some (fdiv (lit 1) (fadd (recordableFps_ started) (lit (1 # 100000))))
    else None.
Proof. split; reflexivity. Qed.

(** Without timer nothing is ever published on the recordable channel. *)
Lemma no_timer_no_recordable_message
      (nh : NodeHandle) (listener : string -> string -> Z -> TfAnswer)
      (now : Z) (inputs : list Input) :
  let started := ElevationMappingNode nh listener now in
  recordableTimer_ started = None ->
  forall d m,
    ~ In (d, Publish recordablePub_ m) (journal (run inputs started)).
Proof.
  intros started Htm d m Hin.
  destruct (run_journal inputs started Htm) as (new & E & Hnew).
  rewrite E in Hin. apply in_app_or in Hin. destruct Hin as [Hin|Hin].
  - simpl in Hin. destruct Hin as [Hin|[]]. discriminate Hin.
  - rewrite Forall_forall in Hnew. specialize (Hnew _ Hin). discriminate Hnew.
Qed.

(** C2, amended: after a successful lookup the point-cloud callback
    refreshes the cached map from the engine and converts it to the map
    message while it holds the shared-map lock, and releases the lock before
    it publishes the map message and the heartbeat; the timer callback, when
    the cached map has the elevation layer, converts that layer and
    publishes it on the throttled channel while it holds the lock.  Both
    leave the mutex as they found it. *)
Theorem lock_scope_of_publishers (n : Node) (cloud : PointCloud2) :
  let k := mapMutex_ n in
  (forall t,
      transformListener_ n (mapFrameId_ n)
                         (header_frame_id cloud) (header_stamp cloud)
      = TfFound t ->
      let n' := snd (pointcloudCallback cloud n) in
      mapMutex_ n' = k /\
      exists before after msg,
        since n n' =
          before ++
          [(k, Lock); (S k, Cache Refresh);
           (S k, Cache UseToMessage); (k, Unlock);
           (k, Publish mapPub_ (GridMapMessage msg));
           (k, Publish alivePub_ EmptyMessage)] ++ after) /\
  (exists_ (gridMap_ n) "elevation" = true ->
   let n' := snd (timerCallback n) in
   mapMutex_ n' = k /\
   exists before msg,
     since n n' =
       before ++
       [(k, Lock); (S k, Cache UseToMessage);
        (S k, Publish recordablePub_ (GridMapMessage msg));
        (k, Unlock)]).
Proof.
  intros k. split.
  - intros t Hok.
    destruct (pointcloudCallback_success n cloud t Hok) as (msg & _ & ->).
    split; [reflexivity|].
    eexists [_], _, _. apply since_app. simpl. reflexivity.
  - intros Hex.
    destruct (timerCallback_elevation n Hex) as (msg & _ & ->).
    split; [reflexivity|].
    exists [(k, Cache UseExists)], msg. apply since_app. reflexivity.
Qed.

(** C4, amended: a submap request that follows a clear-map call gets the
    answer it would have got before the clear; the handler reads the cached
    grid map, which the clear leaves as the last scan refreshed it. *)
Theorem submap_after_clear_is_from_cache
        (n : Node) (request : GetGridMapRequest) :
  fst (getSubmap request (snd (clearMap n))) = fst (getSubmap request n) /\
  gridMap_ (snd (clearMap n)) = gridMap_ n.
Proof.
  destruct n as [e g tf lp lo pe oe pa oa en fps fid ps pcs tm mx ck j].
  split; [|reflexivity].
  run_callback. split_matches; reflexivity.
Qed.

(** What a response holds for an auxiliary layer. *)
Lemma response_auxiliary_layer
      (full subMap : GridMap) (requested : list string) (msg : GridMapMsg)
      (l : string) (m : Matrix cell) :
  full = add_auxiliary_layers subMap ->
  toMessage_layers full requested = inr msg ->
  In (l, m) (response_layers msg) ->
  In l auxiliary_layers ->
  m = cast_float (Zero (ftrunc (fst (length_ subMap)))
                       (ftrunc (snd (length_ subMap)))).
Proof.
  intros -> Hmsg Hin Haux.
  destruct (toMessage_layers_inr _ _ _ Hmsg) as (Els & Hall).
  unfold response_layers in Hin. rewrite Els in Hin.
  pose proof (Forall2_combine _ _ _ _ _ Hall Hin) as Hl. cbv beta in Hl.
  rewrite (auxiliary_layer_data subMap l Haux) in Hl.
  injection Hl as <-. reflexivity.
Qed.


(** In a response, an auxiliary layer has as many rows and columns as the
    side lengths of the extracted submap, in metres, have whole units. *)
Lemma auxiliary_layer_dimensions
      (n : Node) (request : GetGridMapRequest) (l : string) :
  In l auxiliary_layers ->
  let '(subMap, _, _) :=
    GridMap_getSubmap (gridMap_ n)
      (V2 (request_position_x request) (request_position_y request))
      (V2 (request_length_x request) (request_length_y request)) in
  let r := ftrunc (fst (length_ subMap)) in
  let c := ftrunc (snd (length_ subMap)) in
  lookup_layer l (layerData (add_auxiliary_layers subMap)) =
    Some (cast_float (Zero r c)) /\
  forall flag msg m,
    fst (getSubmap request n) = inr (flag, msg) ->
    In (l, m) (response_layers msg) ->
    rows m = r /\ cols m = c /\ zero_filled m.
Proof.
  intros Haux.
  pose proof (getSubmap_run n request) as Hrun.
  destruct (GridMap_getSubmap _ _ _) as [[subMap index] isSuccess].
  cbv zeta in *. split; [apply auxiliary_layer_data; exact Haux|].
  intros flag msg m Hret Hin. rewrite Hrun in Hret. cbn [fst] in Hret.
  match type of Hret with
  | context [toMessage_layers ?g ?ls] =>
      destruct (toMessage_layers g ls) as [e|msg'] eqn:Hmsg
  end; [discriminate|].
  injection Hret as _ <-.
  rewrite (response_auxiliary_layer _ subMap _ msg' l m eq_refl Hmsg Hin Haux).
  repeat split. apply zero_matrix_zero_filled.
Qed.

(** ** Further properties of the callbacks *)

Lemma published_app (p : Publisher) (j j' : list (nat * Action)) :
  published p (j ++ j') = published p j ++ published p j'.
Proof.
  induction j as [|[d a] j IH]; simpl; [reflexivity|].
  destruct a; try exact IH.
  destruct (same_publisher p p0); simpl; rewrite IH; reflexivity.
Qed.

Lemma count_app (kind : Action -> bool) (j j' : list (nat * Action)) :
  count kind (j ++ j') = (count kind j + count kind j')%nat.
Proof. unfold count. rewrite filter_app, length_app. reflexivity. Qed.

(** X1: a scan whose lookup succeeds hands the cloud, the transform and the
    current uncertainties to the engine, refreshes the cached map from the
    engine, and publishes exactly one map message, which is the refreshed
    map stamped with the time of publishing, exactly one heartbeat, the
    point cloud of the elevation layer exactly when republishing is
    enabled, and nothing on the throttled channel. *)
Theorem successful_scan_messages
        (n : Node) (cloud : PointCloud2) (t : Affine3d) :
  transformListener_ n (mapFrameId_ n)
                     (header_frame_id cloud) (header_stamp cloud)
  = TfFound t ->
  let n' := snd (pointcloudCallback cloud n) in
  map_ n' = map_input (points cloud) (rotation t) (translation t)
                      (positionError_ n) (orientationError_ n) (map_ n) /\
  gridMap_ n' = map_get_grid_map (map_ n') (gridMap_ n) /\
  exists msg,
    toMessage (gridMap_ n') = inr msg /\
    published mapPub_ (since n n') =
      [GridMapMessage (set_info_stamp (clock_ n) msg)] /\
    published alivePub_ (since n n') = [EmptyMessage] /\
    published pointPub_ (since n n') =
      (if enablePointCloudPublishing_ n
       then [PointCloudMessage (toPointCloud (gridMap_ n') "elevation")]
       else []) /\
    published recordablePub_ (since n n') = [].
Proof.
  intros Hok n'. subst n'.
  destruct (pointcloudCallback_success n cloud t Hok) as (msg & Hmsg & ->).
  cbv zeta in Hmsg. cbn [snd].
  erewrite since_app by reflexivity.
  destruct n as [e g tf lp lo pe oe pa oa en fps fid ps pcs tm mx ck j].
  cbn [map_ gridMap_ set_journal set_gridMap_ set_map_ positionError_
       orientationError_ clock_ enablePointCloudPublishing_ mapMutex_] in *.
  split; [reflexivity | split; [reflexivity|]].
  exists msg. split; [exact Hmsg|].
  unfold scan_entries. destruct en; repeat split.
Qed.

(** The point-cloud messages of a scan. *)
Lemma scan_point_messages (n : Node) (cloud : PointCloud2) (t : Affine3d) :
  transformListener_ n (mapFrameId_ n)
                     (header_frame_id cloud) (header_stamp cloud)
  = TfFound t ->
  let n' := snd (pointcloudCallback cloud n) in
  published pointPub_ (since n n') =
    (if enablePointCloudPublishing_ n
     then [PointCloudMessage (toPointCloud (gridMap_ n') "elevation")]
     else []).
Proof.
  intros Hok n'. subst n'.
  destruct (pointcloudCallback_success n cloud t Hok) as (msg & _ & ->).
  cbn [snd]. erewrite since_app by reflexivity.
  destruct n as [e g tf lp lo pe oe pa oa en fps fid ps pcs tm mx ck j].
  cbn [gridMap_ set_journal set_gridMap_ set_map_ enablePointCloudPublishing_
       mapMutex_ positionError_ orientationError_ clock_ map_].
  unfold scan_entries. destruct en; reflexivity.
Qed.

(** X2: the set-publish-point handler always reports success, and the next
    successful scan republishes the elevation layer as a point cloud
    exactly when the handler was last called with [true], whatever the flag
    was before. *)
Theorem republishing_follows_the_switch
        (n : Node) (data : bool) (cloud : PointCloud2) (t : Affine3d) :
  transformListener_ n (mapFrameId_ n)
                     (header_frame_id cloud) (header_stamp cloud)
  = TfFound t ->
  let n1 := dispatch n (OnSetPublishPoint data) in
  let n2 := dispatch n1 (OnPointCloud cloud) in
  fst (setPublishPoint data n) = inr (true, true) /\
  published pointPub_ (since n1 n2) =
    (if data
     then [PointCloudMessage (toPointCloud (gridMap_ n2) "elevation")]
     else []).
Proof.
  intros Hok n1 n2. split; [reflexivity|].
  assert (Hok1 : transformListener_ n1 (mapFrameId_ n1)
                   (header_frame_id cloud) (header_stamp cloud) = TfFound t)
    by (destruct n; exact Hok).
  pose proof (scan_point_messages n1 cloud t Hok1) as Hp.
  cbv zeta in Hp.
  change n2 with (snd (pointcloudCallback cloud n1)). rewrite Hp.
  destruct n; reflexivity.
Qed.


Lemma dispatch_mutex (n : Node) (i : Input) :
  mapMutex_ (dispatch n i) = mapMutex_ n.
Proof.
  destruct n as [e g tf lp lo pe oe pa oa en fps fid ps pcs tm mx ck j].
  destruct i; run_callback; split_matches; reflexivity.
Qed.

(** X4: whatever arrives, in whatever order, the callbacks leave the
    shared-map mutex as they found it, also the submap handler when it
    raises. *)
Theorem run_releases_the_mutex (inputs : list Input) (n : Node) :
  mapMutex_ (run inputs n) = mapMutex_ n.
Proof.
  revert n. induction inputs as [|i inputs IH]; intros n; simpl.
  - reflexivity.
  - rewrite IH. apply dispatch_mutex.
Qed.

Lemma dispatch_lock_discipline (n : Node) (i : Input) :
  exists new,
    journal (dispatch n i) = journal n ++ new /\
    (mapMutex_ n = 0%nat -> forallb lock_discipline new = true).
Proof.
  destruct n as [e g tf lp lo pe oe pa oa en fps fid ps pcs tm mx ck j].
  destruct i; run_callback; split_matches; repeat rewrite <- app_assoc;
    first [ eexists; split; [ reflexivity | intros ->; reflexivity ]
          | exists []; split;
            [ symmetry; apply app_nil_r | intros _; reflexivity ] ].
Qed.

Lemma run_lock_discipline (inputs : list Input) (n : Node) :
  mapMutex_ n = 0%nat ->
  forallb lock_discipline (journal n) = true ->
  forallb lock_discipline (journal (run inputs n)) = true.
Proof.
  revert n. induction inputs as [|i inputs IH]; intros n Hmx Hj; simpl.
  - exact Hj.
  - apply IH.
    + rewrite dispatch_mutex. exact Hmx.
    + destruct (dispatch_lock_discipline n i) as (new & -> & Hnew).
      rewrite forallb_app, Hj, (Hnew Hmx). reflexivity.
Qed.

(** X5: in every run of the constructed node the cached grid map is written
    only inside a hold of the mutex, the throttled message is published
    inside a hold, every other message is published outside, and the lock
    is never taken a second time by the callback that holds it. *)
Theorem runs_keep_the_lock_discipline
        (nh : NodeHandle) (listener : string -> string -> Z -> TfAnswer)
        (now : Z) (inputs : list Input) :
  forallb lock_discipline
          (journal (run inputs (ElevationMappingNode nh listener now))) = true.
Proof. apply run_lock_discipline; reflexivity. Qed.

Lemma dispatch_without_scan (n : Node) (i : Input) :
  exists_ (gridMap_ n) "elevation" = false ->
  match i with OnPointCloud cloud => lookup_fails n cloud | _ => true end
  = true ->
  gridMap_ (dispatch n i) = gridMap_ n /\
  exists new,
    journal (dispatch n i) = journal n ++ new /\
    forallb (fun e => negb (is_publish (snd e))) new = true.
Proof.
  intros Hex Hfail.
  destruct i as [pose|cloud|request| |data| |now listener].
  - unfold dispatch. rewrite poseCallback_run. cbv zeta. cbn [snd].
    destruct n; split; [reflexivity|]. eexists. split; reflexivity.
  - unfold lookup_fails in Hfail. unfold dispatch.
    destruct (transformListener_ n (mapFrameId_ n) (header_frame_id cloud)
                                 (header_stamp cloud)) as [t|kind what] eqn:E;
      [discriminate|].
    rewrite (pointcloudCallback_failure n cloud kind what E). cbn [snd].
    destruct n; split; [reflexivity|]. eexists. split; reflexivity.
  - unfold dispatch. pose proof (getSubmap_run n request) as Hrun.
    destruct (GridMap_getSubmap _ _ _) as [[subMap index] isSuccess].
    cbv zeta in Hrun. rewrite Hrun. cbn [snd].
    destruct n; split; [reflexivity|]. eexists. split; reflexivity.
  - destruct n; split; [reflexivity|]. unfold dispatch, clearMap.
    run_callback. rewrite <- app_assoc. eexists. split; reflexivity.
  - destruct n; split; [reflexivity|]. exists [].
    split; [symmetry; apply app_nil_r | reflexivity].
  - unfold dispatch. destruct (recordableTimer_ n).
    + rewrite (timerCallback_no_elevation n Hex). cbn [snd].
      destruct n; split; [reflexivity|]. eexists. split; reflexivity.
    + split; [reflexivity|]. exists [].
      split; [symmetry; apply app_nil_r | reflexivity].
  - destruct n; split; [reflexivity|]. exists [].
    split; [symmetry; apply app_nil_r | reflexivity].
Qed.

Lemma run_without_scan (inputs : list Input) (n : Node) :
  exists_ (gridMap_ n) "elevation" = false ->
  no_scan_succeeds inputs n = true ->
  gridMap_ (run inputs n) = gridMap_ n /\
  exists new,
    journal (run inputs n) = journal n ++ new /\
    forallb (fun e => negb (is_publish (snd e))) new = true.
Proof.
  revert n. induction inputs as [|i inputs IH]; intros n Hex Hno; simpl.
  - split; [reflexivity|]. exists [].
    split; [symmetry; apply app_nil_r | reflexivity].
  - simpl in Hno. apply andb_prop in Hno. destruct Hno as [Hi Hrest].
    destruct (dispatch_without_scan n i Hex Hi) as (Hg & new1 & E1 & H1).
    destruct (IH (dispatch n i)) as (Hg' & new2 & E2 & H2);
      [rewrite Hg; exact Hex | exact Hrest |].
    split; [rewrite Hg', Hg; reflexivity|].
    exists (new1 ++ new2). split.
    + rewrite E2, E1, app_assoc. reflexivity.
    + rewrite forallb_app, H1, H2. reflexivity.
Qed.

(** X6: until a scan is processed with a successful lookup the node
    publishes nothing on any publisher, timer ticks included, and its
    cached grid map stays the empty map that the constructor gave the
    frame of the map. *)
Theorem silent_until_the_first_scan
        (nh : NodeHandle) (listener : string -> string -> Z -> TfAnswer)
        (now : Z) (inputs : list Input) :
  let started := ElevationMappingNode nh listener now in
  no_scan_succeeds inputs started = true ->
  gridMap_ (run inputs started) =
    setFrameId (param (param_map_frame nh) "map") GridMap_empty /\
  forallb (fun e => negb (is_publish (snd e)))
          (journal (run inputs started)) = true.
Proof.
  intros started Hno.
  destruct (run_without_scan inputs started eq_refl Hno) as (Hg & new & E & H).
  split; [rewrite Hg; reflexivity|].
  rewrite E, forallb_app, H. reflexivity.
Qed.

Lemma run_keeps_errors (inputs : list Input) (n : Node) :
  pose_samples inputs = [] ->
  positionError_ (run inputs n) = positionError_ n /\
  orientationError_ (run inputs n) = orientationError_ n.
Proof.
  revert n. induction inputs as [|i inputs IH]; intros n Hno; simpl.
  - split; reflexivity.
  - assert (Hi : is_pose i = false /\ pose_samples inputs = [])
      by (destruct i; simpl in Hno; try discriminate; split; auto).
    destruct Hi as [Hi Hrest].
    destruct (IH (dispatch n i) Hrest) as (-> & ->).
    destruct (dispatch_keeps_filter n i Hi) as (_ & _ & -> & ->).
    split; reflexivity.
Qed.

Lemma dispatch_pose_errors (n : Node) (pose : Pose) :
  positionError_ (dispatch n (OnPose pose)) =
    norm3 (sub3 (raw_position pose)
                (ema3 (positionAlpha_ n) (raw_position pose)
                      (lowpassPosition_ n))) /\
  orientationError_ (dispatch n (OnPose pose)) =
    norm4 (sub4 (raw_orientation pose)
                (ema4 (orientationAlpha_ n) (raw_orientation pose)
                      (lowpassOrientation_ n))).
Proof.
  destruct n as [e g tf lp lo pe oe pa oa en fps fid ps pcs tm mx ck j].
  split; reflexivity.
Qed.

(** X7: the uncertainties a scan hands to the engine are the two errors of
    the latest pose sample, however many scans, timer ticks and service
    calls came in between; a scan that precedes every pose sample hands
    over 0 and 0. *)
Theorem scan_uses_the_latest_pose_errors
        (cloud : PointCloud2) (t : Affine3d) :
  (forall (n : Node) (pose : Pose) (between : list Input),
      let n1 := run (OnPose pose :: between) n in
      pose_samples between = [] ->
      transformListener_ n1 (mapFrameId_ n1)
                         (header_frame_id cloud) (header_stamp cloud)
      = TfFound t ->
      map_ (dispatch n1 (OnPointCloud cloud)) =
        map_input (points cloud) (rotation t) (translation t)
          (norm3 (sub3 (raw_position pose)
                       (ema3 (positionAlpha_ n) (raw_position pose)
                             (lowpassPosition_ n))))
          (norm4 (sub4 (raw_orientation pose)
                       (ema4 (orientationAlpha_ n) (raw_orientation pose)
                             (lowpassOrientation_ n))))
          (map_ n1)) /\
  (forall (nh : NodeHandle) (listener : string -> string -> Z -> TfAnswer)
          (now : Z) (before : list Input),
      let n1 := run before (ElevationMappingNode nh listener now) in
      pose_samples before = [] ->
      transformListener_ n1 (mapFrameId_ n1)
                         (header_frame_id cloud) (header_stamp cloud)
      = TfFound t ->
      map_ (dispatch n1 (OnPointCloud cloud)) =
        map_input (points cloud) (rotation t) (translation t)
                  (lit 0) (lit 0) (map_ n1)).
Proof.
  split.
  - intros n pose between n1 Hno Hok.
    unfold dispatch.
    destruct (pointcloudCallback_success n1 cloud t Hok) as (msg & _ & ->).
    cbn [snd].
    assert (Hmap : forall v g (m : Node), map_ (set_journal v (set_gridMap_ g m))
                                          = map_ m) by (intros; destruct m; reflexivity).
    rewrite Hmap.
    assert (Hset : forall v (m : Node), map_ (set_map_ v m) = v)
      by (intros; destruct m; reflexivity).
    rewrite Hset.
    unfold n1.
    change (run (OnPose pose :: between) n)
      with (run between (dispatch n (OnPose pose))).
    destruct (run_keeps_errors between (dispatch n (OnPose pose)) Hno)
      as (-> & ->).
    destruct (dispatch_pose_errors n pose) as (-> & ->). reflexivity.
  - intros nh listener now before n1 Hno Hok.
    unfold dispatch.
    destruct (pointcloudCallback_success n1 cloud t Hok) as (msg & _ & ->).
    cbn [snd].
    assert (Hmap : forall v g (m : Node), map_ (set_journal v (set_gridMap_ g m))
                                          = map_ m) by (intros; destruct m; reflexivity).
    rewrite Hmap.
    assert (Hset : forall v (m : Node), map_ (set_map_ v m) = v)
      by (intros; destruct m; reflexivity).
    rewrite Hset. unfold n1.
    destruct (run_keeps_errors before (ElevationMappingNode nh listener now) Hno)
      as (-> & ->).
    reflexivity.
Qed.

(** X8: the submap handler only reads: whatever the request, and also when
    it raises, it leaves every member of the node as it was, calls the
    engine not at all, publishes nothing and does not take the lock. *)
Theorem getSubmap_is_read_only (n : Node) (request : GetGridMapRequest) :
  let n' := snd (getSubmap request n) in
  same_members n n' /\
  since n n' =
    [(mapMutex_ n,
      Log DEBUG
        "Elevation submap request: Position x=%f, y=%f, Length x=%f, y=%f.");
     (mapMutex_ n, Cache UseGetSubmap); (mapMutex_ n, SubmapToMessage)].
Proof.
  pose proof (getSubmap_run n request) as Hrun.
  destruct (GridMap_getSubmap _ _ _) as [[subMap index] isSuccess].
  cbv zeta in *. rewrite Hrun. cbn [snd].
  split.
  - destruct n; unfold same_members; repeat split.
  - apply since_app. destruct n; reflexivity.
Qed.

Lemma add_keeps_geometry (l : string) (m : Matrix cell) (g : GridMap) :
  frameId (add l m g) = frameId g /\ timestamp (add l m g) = timestamp g /\
  resolution (add l m g) = resolution g /\ length_ (add l m g) = length_ g /\
  position (add l m g) = position g /\ size_ (add l m g) = size_ g /\
  startIndex (add l m g) = startIndex g /\
  basicLayers (add l m g) = basicLayers g.
Proof. unfold add. destruct (exists_ g l); repeat split. Qed.

Lemma add_auxiliary_layers_keeps_geometry (g : GridMap) :
  frameId (add_auxiliary_layers g) = frameId g /\
  timestamp (add_auxiliary_layers g) = timestamp g /\
  resolution (add_auxiliary_layers g) = resolution g /\
  length_ (add_auxiliary_layers g) = length_ g /\
  position (add_auxiliary_layers g) = position g /\
  size_ (add_auxiliary_layers g) = size_ g /\
  startIndex (add_auxiliary_layers g) = startIndex g /\
  basicLayers (add_auxiliary_layers g) = basicLayers g.
Proof.
  unfold add_auxiliary_layers.
  generalize (cast_float (Zero (ftrunc (fst (length_ g)))
                               (ftrunc (snd (length_ g))))) as m.
  intros m. generalize auxiliary_layers as ls.
  intros ls. revert g. induction ls as [|l ls IH]; intros g; simpl.
  - repeat split.
  - destruct (IH (add l m g)) as (-> & -> & -> & -> & -> & -> & -> & ->).
    apply add_keeps_geometry.
Qed.

Lemma not_auxiliary (l : string) :
  ~ In l auxiliary_layers ->
  existsb (fun k => String.eqb k l) auxiliary_layers = false.
Proof.
  intros Hn. destruct (existsb _ _) eqn:E; [|reflexivity].
  apply existsb_exists in E. destruct E as (k & Hk & Heq).
  apply String.eqb_eq in Heq. subst k. contradiction.
Qed.

(** X9: what the submap handler returns describes the extracted submap:
    its frame, time stamp, resolution, side lengths, position and start
    index are those of the extraction, which the added layers leave alone,
    and every layer in the response that is not one of the nine auxiliary
    names carries the matrix the extraction gave it. *)
Theorem getSubmap_passes_the_extraction_on
        (n : Node) (request : GetGridMapRequest) :
  let '(subMap, _, _) :=
    GridMap_getSubmap (gridMap_ n)
      (V2 (request_position_x request) (request_position_y request))
      (V2 (request_length_x request) (request_length_y request)) in
  match fst (getSubmap request n) with
  | inl _ => True
  | inr (_, msg) =>
      same_geometry msg subMap /\
      info_stamp msg = timestamp subMap /\
      forall l m, In (l, m) (response_layers msg) ->
                  ~ In l auxiliary_layers ->
                  lookup_layer l (layerData subMap) = Some m
  end.
Proof.
  pose proof (getSubmap_run n request) as Hrun.
  destruct (GridMap_getSubmap _ _ _) as [[subMap index] isSuccess].
  cbv zeta in *. rewrite Hrun. cbn [fst]. clear Hrun.
  match goal with
  | |- context [toMessage_layers ?g ?ls] =>
      destruct (toMessage_layers g ls) as [e|msg] eqn:Hmsg
  end; [exact I|].
  destruct (toMessage_layers_inr _ _ _ Hmsg) as (Els & Hall).
  destruct (add_auxiliary_layers_keeps_geometry subMap)
    as (Hf & Ht & Hr & Hl & Hp & _ & Hs & Hb).
  unfold toMessage_layers in Hmsg.
  destruct (get_all _ _) as [e|ms]; [discriminate|].
  injection Hmsg as <-. unfold same_geometry.
  cbn [info_stamp info_frame_id info_resolution info_length_x info_length_y
       info_position_x info_position_y msg_layers msg_basic_layers msg_data
       outer_start_index inner_start_index].
  rewrite Hf, Ht, Hr, Hl, Hp, Hs, Hb.
  repeat split; try (symmetry; apply surjective_pairing).
  intros l m Hin Hn.
  unfold response_layers in Hin.
  cbn [info_stamp info_frame_id info_resolution info_length_x info_length_y
       info_position_x info_position_y msg_layers msg_basic_layers msg_data
       outer_start_index inner_start_index] in Hin.
  pose proof (Forall2_combine _ _ _ _ _ Hall Hin) as Hlm. cbv beta in Hlm.
  unfold add_auxiliary_layers in Hlm.
  rewrite lookup_fold_add, (not_auxiliary l Hn) in Hlm. exact Hlm.
Qed.

Lemma getLayers_replace_layer (l : string) (m : Matrix cell)
      (d : list (string * Matrix cell)) :
  map fst (replace_layer l m d) = map fst d.
Proof.
  induction d as [|[k m'] d IH]; simpl; [reflexivity|].
  destruct (String.eqb k l); simpl; [reflexivity | rewrite IH; reflexivity].
Qed.

Lemma getLayers_add (l : string) (m : Matrix cell) (g : GridMap) :
  getLayers (add l m g) =
    if exists_ g l then getLayers g else getLayers g ++ [l].
Proof.
  unfold add, getLayers. destruct (exists_ g l); simpl.
  - apply getLayers_replace_layer.
  - rewrite map_app. reflexivity.
Qed.

Lemma exists_add (l k : string) (m : Matrix cell) (g : GridMap) :
  exists_ (add l m g) k = (String.eqb l k || exists_ g k)%bool.
Proof.
  unfold exists_ at 1. rewrite lookup_add.
  destruct (String.eqb l k); reflexivity.
Qed.

Lemma getLayers_fold_add (ls : list string) (m : Matrix cell) (g : GridMap) :
  NoDup ls ->
  getLayers (fold_left (fun g l => add l m g) ls g) =
    getLayers g ++ filter (fun l => negb (exists_ g l)) ls.
Proof.
  intros Hnd. revert g. induction Hnd as [|a ls Ha Hnd IH]; intros g; simpl.
  - symmetry. apply app_nil_r.
  - rewrite IH, getLayers_add.
    assert (Hf : filter (fun l => negb (exists_ (add a m g) l)) ls
                 = filter (fun l => negb (exists_ g l)) ls).
    { apply filter_ext_in. intros l Hl. rewrite exists_add.
      destruct (String.eqb_spec a l) as [->|_]; [contradiction | reflexivity]. }
    rewrite Hf. destruct (exists_ g a); simpl.
    + reflexivity.
    + rewrite <- app_assoc. reflexivity.
Qed.

Lemma auxiliary_layers_distinct : NoDup auxiliary_layers.
Proof.
  unfold auxiliary_layers.
  repeat (constructor;
          [ simpl; intros Hin;
            repeat (destruct Hin as [Hin|Hin]; [discriminate Hin|]);
            exact Hin | ]).
  constructor.
Qed.

(** X10: a request that lists no layer is answered with the layers of the
    extracted submap first, in the order the extraction gave them, followed
    by those of the nine auxiliary layers that the extracted submap did not
    already have, in the order of the source; it never raises. *)
Theorem getSubmap_default_layer_order
        (n : Node) (request : GetGridMapRequest) :
  request_layers request = [] ->
  let '(subMap, _, isSuccess) :=
    GridMap_getSubmap (gridMap_ n)
      (V2 (request_position_x request) (request_position_y request))
      (V2 (request_length_x request) (request_length_y request)) in
  exists msg,
    fst (getSubmap request n) = inr (isSuccess, msg) /\
    msg_layers msg =
      getLayers subMap ++
      filter (fun l => negb (exists_ subMap l)) auxiliary_layers.
Proof.
  intros Hnil.
  pose proof (getSubmap_run n request) as Hrun.
  destruct (GridMap_getSubmap _ _ _) as [[subMap index] isSuccess].
  cbv zeta in *. rewrite Hrun, Hnil. cbn [fst]. clear Hrun.
  destruct (toMessage_total (add_auxiliary_layers subMap))
    as (msg & Hmsg & Hlayers).
  unfold toMessage in Hmsg. rewrite Hmsg.
  exists msg. split; [reflexivity|].
  rewrite Hlayers. unfold add_auxiliary_layers.
  apply getLayers_fold_add. exact auxiliary_layers_distinct.
Qed.

(** X11: the timer callback never raises and leaves every member of the
    node as it was.  When the cached map has the elevation layer it
    publishes one message on the throttled channel, which holds that layer
    alone with the geometry and time stamp of the cached map; when it has
    not, it publishes nothing.  It never publishes on another publisher. *)
Theorem timerCallback_publishes_the_elevation_layer (n : Node) :
  let n' := snd (timerCallback n) in
  fst (timerCallback n) = inr tt /\
  same_members n n' /\
  published mapPub_ (since n n') = [] /\
  published alivePub_ (since n n') = [] /\
  published pointPub_ (since n n') = [] /\
  match lookup_layer "elevation" (layerData (gridMap_ n)) with
  | Some elevation =>
      exists msg,
        published recordablePub_ (since n n') = [GridMapMessage msg] /\
        msg_layers msg = ["elevation"] /\
        msg_data msg = [elevation] /\
        same_geometry msg (gridMap_ n) /\
        info_stamp msg = timestamp (gridMap_ n)
  | None => published recordablePub_ (since n n') = []
  end.
Proof.
  destruct (exists_ (gridMap_ n) "elevation") eqn:Hex.
  - destruct (timerCallback_elevation n Hex) as (msg & Hmsg & ->).
    cbn [fst snd]. erewrite since_app by (destruct n; reflexivity).
    split; [reflexivity|]. split; [destruct n; unfold same_members; repeat split|].
    repeat (split; [reflexivity|]).
    unfold exists_ in Hex. unfold toMessage_layers, get_all, get in Hmsg.
    destruct (lookup_layer "elevation" (layerData (gridMap_ n)))
      as [elevation|]; [|discriminate].
    injection Hmsg as <-. eexists. split; [reflexivity|].
    unfold same_geometry.
    cbn [info_stamp info_frame_id info_resolution info_length_x info_length_y
       info_position_x info_position_y msg_layers msg_basic_layers msg_data
       outer_start_index inner_start_index].
    repeat split; symmetry; apply surjective_pairing.
  - rewrite (timerCallback_no_elevation n Hex).
    cbn [fst snd]. erewrite since_app by (destruct n; reflexivity).
    split; [reflexivity|]. split; [destruct n; unfold same_members; repeat split|].
    repeat (split; [reflexivity|]).
    unfold exists_ in Hex.
    destruct (lookup_layer "elevation" (layerData (gridMap_ n)));
      [discriminate | reflexivity].
Qed.

Lemma dispatch_counts (n : Node) (i : Input) :
  exists new,
    journal (dispatch n i) = journal n ++ new /\
    count (is_publish_on mapPub_) new = count is_engine_input new /\
    count (is_publish_on alivePub_) new = count is_engine_input new /\
    (count (is_publish_on pointPub_) new <= count is_engine_input new)%nat.
Proof.
  destruct i as [pose|cloud|request| |data| |now listener].
  2: { unfold dispatch.
       destruct (transformListener_ n (mapFrameId_ n) (header_frame_id cloud)
                                    (header_stamp cloud)) as [t|kind what] eqn:E.
       - destruct (pointcloudCallback_success n cloud t E) as (msg & _ & ->).
         cbn [snd]. eexists. split; [destruct n; reflexivity|].
         unfold scan_entries.
         destruct (enablePointCloudPublishing_ n);
           (split; [reflexivity | split; [reflexivity|]]);
           first [apply le_n | apply le_S; apply le_n].
       - rewrite (pointcloudCallback_failure n cloud kind what E). cbn [snd].
         eexists. split; [destruct n; reflexivity|].
         split; [reflexivity | split; [reflexivity | apply le_n]]. }
  all: destruct n as [e g tf lp lo pe oe pa oa en fps fid ps pcs tm mx ck j];
    run_callback; split_matches; repeat rewrite <- app_assoc;
    first [ exists []; split;
            [ symmetry; apply app_nil_r
            | split; [reflexivity | split; [reflexivity | apply le_n]] ]
          | eexists; split;
            [ reflexivity
            | split; [reflexivity | split; [reflexivity | apply le_n]] ] ].
Qed.

(** X12: over every run of the constructed node the number of map messages
    and the number of heartbeats both equal the number of calls of the
    engine's [input], and there are at most as many point-cloud messages:
    each fused scan is announced exactly once. *)
Theorem one_map_message_and_heartbeat_per_fused_scan
        (nh : NodeHandle) (listener : string -> string -> Z -> TfAnswer)
        (now : Z) (inputs : list Input) :
  let j := journal (run inputs (ElevationMappingNode nh listener now)) in
  count (is_publish_on mapPub_) j = count is_engine_input j /\
  count (is_publish_on alivePub_) j = count is_engine_input j /\
  (count (is_publish_on pointPub_) j <= count is_engine_input j)%nat.
Proof.
  cbv zeta.
  assert (Hgen : forall inputs n,
             count (is_publish_on mapPub_) (journal n)
             = count is_engine_input (journal n) ->
             count (is_publish_on alivePub_) (journal n)
             = count is_engine_input (journal n) ->
             (count (is_publish_on pointPub_) (journal n)
              <= count is_engine_input (journal n))%nat ->
             count (is_publish_on mapPub_) (journal (run inputs n))
             = count is_engine_input (journal (run inputs n)) /\
             count (is_publish_on alivePub_) (journal (run inputs n))
             = count is_engine_input (journal (run inputs n)) /\
             (count (is_publish_on pointPub_) (journal (run inputs n))
              <= count is_engine_input (journal (run inputs n)))%nat).
  { clear inputs. induction inputs as [|i inputs IH]; intros n H1 H2 H3; simpl.
    - repeat split; assumption.
    - destruct (dispatch_counts n i) as (new & E & N1 & N2 & N3).
      apply IH; rewrite E, !count_app; lia. }
  apply Hgen; first [reflexivity | apply le_n].
Qed.

(** X13: the pose callback moves the engine to the x and y of the pose, and
    to nothing else of it; it leaves the cached grid map, the republishing
    flag and the mutex alone, publishes nothing and takes no lock. *)
Theorem poseCallback_moves_the_engine_only (n : Node) (pose : Pose) :
  let n' := snd (poseCallback pose n) in
  let position := V2 (position_x pose) (position_y pose) in
  map_ n' = map_move_to position (map_ n) /\
  gridMap_ n' = gridMap_ n /\
  enablePointCloudPublishing_ n' = enablePointCloudPublishing_ n /\
  mapMutex_ n' = mapMutex_ n /\
  since n n' = [(mapMutex_ n, EngineMoveTo position)].
Proof.
  rewrite poseCallback_run. cbv zeta. cbn [snd].
  destruct n as [e g tf lp lo pe oe pa oa en fps fid ps pcs tm mx ck j].
  repeat split. apply since_app. reflexivity.
Qed.

End CallbackFacts.

(** ** The pose filter in exact arithmetic *)

Section ExactArithmetic.
#[local] Existing Instance RScalar.
Context {O : Outside}.
Local Open Scope R_scope.

Lemma lit_0 : lit 0 = 0.
Proof. simpl. unfold Q2R. simpl. lra. Qed.

Lemma lit_1 : lit 1 = 1.
Proof. simpl. unfold Q2R. simpl. lra. Qed.

Lemma lit_small : lit (1 # 100000) = 1 / 100000.
Proof. simpl. unfold Q2R. simpl. lra. Qed.




(** For a constant series of raw positions the recurrence has the closed
    form [c + (1-alpha)^N (s - c)] in each coordinate. *)
Lemma ema_recurrence_constant (alpha : R) (c s : Vector3d) (N : nat) :
  ema_recurrence alpha (repeat c N) s =
    V3 (x3 c + (1 - alpha) ^ N * (x3 s - x3 c))
       (y3 c + (1 - alpha) ^ N * (y3 s - y3 c))
       (z3 c + (1 - alpha) ^ N * (z3 s - z3 c)).
Proof.
  revert s. induction N as [|N IH]; intros s; simpl.
  - destruct s; simpl. change (@F RScalar) with R in *. f_equal; ring.
  - rewrite IH. unfold ema3, ema. rewrite lit_1. simpl.
    change (@F RScalar) with R in *. f_equal; ring.
Qed.

(** The timer of the constructed node, by the sign of the rate. *)
Lemma constructor_timer_exact
      (nh : NodeHandle) (listener : string -> string -> Z -> TfAnswer)
      (now : Z) :
  let started := ElevationMappingNode nh listener now in
  let fps : R := recordableFps_ started in
  (fps <= 0 -> recordableTimer_ started = None) /\
  (0 < fps -> recordableTimer_ started = Some (1 / (fps + 1 / 100000))).
Proof.
  intros started fps.
  destruct (constructor_timer nh listener now) as (_ & Htimer).
  fold started in Htimer. fold fps in Htimer.
  rewrite lit_0, lit_1, lit_small in Htimer.
  simpl fgtb in Htimer. unfold Rgtb in Htimer.
  destruct (Rlt_dec 0 fps) as [Hlt|Hle]; split; intros Hfps;
    solve [exact Htimer | lra].
Qed.

(** C6, amended: when the configured rate is at most 0 no timer is created
    and nothing is ever published on the throttled channel; when it is
    positive the period of the timer is 1/(rate + 0.00001), and that
    divisor is not zero. *)
Theorem recordable_timer_period
        (nh : NodeHandle) (listener : string -> string -> Z -> TfAnswer)
        (now : Z) (inputs : list Input) :
  let started := ElevationMappingNode nh listener now in
  let fps : R := recordableFps_ started in
  (fps <= 0 ->
   recordableTimer_ started = None /\
   forall d m,
     ~ In (d, Publish recordablePub_ m) (journal (run inputs started))) /\
  (0 < fps ->
   recordableTimer_ started = Some (1 / (fps + 1 / 100000)) /\
   fps + 1 / 100000 <> 0).
Proof.
  intros started fps.
  destruct (constructor_timer_exact nh listener now) as (Hnone & Hsome).
  split.
  - intros Hle. split; [exact (Hnone Hle)|].
    apply no_timer_no_recordable_message. exact (Hnone Hle).
  - intros Hlt. split; [exact (Hsome Hlt) | lra].
Qed.

End ExactArithmetic.

(** ** Concrete runs in exact arithmetic *)

Section ExactRuns.
#[local] Existing Instance RScalar.
Local Open Scope R_scope.

Lemma default_rate : recordableFps_ Demo.started = 3.
Proof.
  unfold Demo.started, ElevationMappingNode. cbn [recordableFps_].
  unfold Demo.nh, param. cbn [param_recordable_fps].
  simpl. unfold Q2R. simpl. lra.
Qed.


(** C6, as stated, fails: with the default rate of 3 Hz the period of the
    timer is not 1/3 s. *)
Lemma default_timer_period_is_not_inverse_rate :
  0 < recordableFps_ Demo.started /\
  recordableTimer_ Demo.started <> Some (1 / recordableFps_ Demo.started).
Proof.
  pose proof default_rate as Hfps.
  split; [rewrite Hfps; lra|].
  destruct (constructor_timer_exact (O := SmallOutside) Demo.nh
              Demo.listener_ok 0%Z) as (_ & Hpos).
  change (ElevationMappingNode Demo.nh Demo.listener_ok 0%Z)
    with (Demo.started (Sc := RScalar)) in Hpos.
  cbv zeta in Hpos. rewrite Hfps in *.
  rewrite Hpos by lra.
  intros E. injection E as E.
  assert (H1 : 1 / (3 + 1 / 100000) * (3 + 1 / 100000) = 1) by (field; lra).
  rewrite E in H1. lra.
Qed.

(** With the default rate the timer has the period 1/(3 + 0.00001). *)
Lemma default_timer_period :
  recordableTimer_ Demo.started =
    Some (1 / (recordableFps_ Demo.started + 1 / 100000)) /\
  recordableFps_ Demo.started + 1 / 100000 <> 0.
Proof.
  apply (recordable_timer_period (O := SmallOutside) Demo.nh
           Demo.listener_ok 0%Z []).
  change (0 < recordableFps_ Demo.started). rewrite default_rate. lra.
Defined.


End ExactRuns.

(** ** Concrete runs in binary64 *)

Section Binary64Runs.
#[local] Existing Instance Binary64.
Local Open Scope string_scope.
Local Open Scope list_scope.

(** A scan dropped for an extrapolation failure of the listener. *)
Lemma failed_lookup_drops_scan :
  let (result, n') := pointcloudCallback Demo.cloud Demo.started_blind in
  result = inr tt /\
  map_ n' = map_ Demo.started_blind /\
  gridMap_ n' = gridMap_ Demo.started_blind /\
  since Demo.started_blind n' =
    [(mapMutex_ Demo.started_blind,
      Log ERROR "Lookup would require extrapolation into the future.")] /\
  Forall (fun e => is_engine_input (snd e) = false /\
                   is_publish (snd e) = false) (since Demo.started_blind n').
Proof.
  exact (pointcloudCallback_lookup_failure
           Demo.started_blind Demo.cloud ExtrapolationException
           "Lookup would require extrapolation into the future." eq_refl).
Defined.

(** C2, as stated, fails: the scan of [Demo.cloud] converts the cached map
    to the map message while the callback holds the lock. *)
Lemma scan_converts_under_lock :
  ~ (reads_under_lock (since Demo.started Demo.scanned) /\
     converts_and_publishes_unlocked (since Demo.started Demo.scanned)).
Proof.
  intros [_ Hunlocked].
  assert (Hin : In (1%nat, Cache UseToMessage)
                   (since Demo.started Demo.scanned)).
  { destruct (pointcloudCallback_success Demo.started Demo.cloud
                Demo.sensor_pose eq_refl) as (msg & _ & E).
    change Demo.scanned with (snd (pointcloudCallback Demo.cloud Demo.started)).
    rewrite E. cbn [snd].
    erewrite since_app by reflexivity.
    unfold scan_entries. right; right; right; left. reflexivity. }
  specialize (Hunlocked 1%nat _ Hin (or_introl eq_refl)).
  discriminate Hunlocked.
Qed.

(** The scan of [Demo.cloud]: refresh and conversion under the lock, the
    two messages after its release; and a tick of the timer after it:
    conversion and message under the lock. *)
Lemma scan_lock_scope :
  (exists before after msg,
      since Demo.started Demo.scanned =
        before ++
        [(0%nat, Lock); (1%nat, Cache Refresh); (1%nat, Cache UseToMessage);
         (0%nat, Unlock); (0%nat, Publish mapPub_ (GridMapMessage msg));
         (0%nat, Publish alivePub_ EmptyMessage)] ++ after) /\
  (exists before msg,
      since Demo.scanned (snd (timerCallback Demo.scanned)) =
        before ++
        [(0%nat, Lock); (1%nat, Cache UseToMessage);
         (1%nat, Publish recordablePub_ (GridMapMessage msg));
         (0%nat, Unlock)]).
Proof.
  split.
  - destruct (lock_scope_of_publishers Demo.started Demo.cloud) as [Hscan _].
    exact (proj2 (Hscan Demo.sensor_pose eq_refl)).
  - destruct (lock_scope_of_publishers Demo.scanned Demo.cloud) as [_ Htimer].
    exact (proj2 (Htimer eq_refl)).
Defined.

(** C4, as stated, fails: after the scan of [Demo.cloud] and a clear, the
    answer to a request for the whole map still carries the scanned height
    of 1.5 m, where the map of the cleared engine is flat. *)
Lemma submap_after_clear_is_stale :
  let cleared := snd (clearMap Demo.scanned) in
  fst (getSubmap (Demo.request []) cleared) <>
  fst (getSubmap (Demo.request []) (Demo.refreshed cleared)).
Proof.
  intros cleared E.
  apply (f_equal first_layer_is_flat) in E.
  vm_compute in E. discriminate E.
Qed.



(** The pose filter compares after filtering: after the first sample at
    (1,2,3) the position error is the norm of 0.8 times the sample, not the
    norm of the sample. *)
Example positionError_is_not_compare_then_filter :
  let n1 := run [OnPose Demo.pose] Demo.started in
  positionError_ n1 =
    norm3 (sub3 (raw_position Demo.pose) (lowpassPosition_ n1)) /\
  PrimFloat.ltb (positionError_ n1)
    (norm3 (sub3 (raw_position Demo.pose) (lowpassPosition_ Demo.started)))
  = true.
Proof. vm_compute. split; reflexivity. Qed.

(** In binary64 too, a first sample at the identity quaternion leaves no
    orientation error with the default factor. *)
Example identity_orientation_leaves_no_error :
  let at_identity :=
    {| position_x := lit 1; position_y := lit 2; position_z := lit 3;
       orientation_x := lit 0; orientation_y := lit 0; orientation_z := lit 0;
       orientation_w := lit 1 |} in
  orientationError_ (run [OnPose at_identity] Demo.started) = PrimFloat.zero.
Proof. vm_compute. reflexivity. Qed.

(** In binary64 the default timer period is not the inverse of the rate
    either. *)
Example default_timer_period_binary64 :
  match recordableTimer_ Demo.started with
  | Some period =>
      PrimFloat.ltb period (PrimFloat.div 1 (recordableFps_ Demo.started))
  | None => false
  end = true.
Proof. vm_compute. reflexivity. Qed.

End Binary64Runs.

(** C9: in every submap response each of the nine auxiliary layers is the
    zero matrix whose numbers of rows and columns are the two side lengths
    of the extracted submap in metres, cut to integers; the number of cells
    of the submap plays no part.  For the whole 2 m by 2 m map of 4 by 4
    cells the auxiliary layers are 2 by 2 beside an elevation layer of 4 by
    4. *)
Theorem auxiliary_layers_sized_by_metric_length :
  (forall (Sc : Scalar) (O : Outside) (n : Node)
          (request : GetGridMapRequest) (l : string),
      In l auxiliary_layers ->
      let '(subMap, _, _) :=
        GridMap_getSubmap (gridMap_ n)
          (V2 (request_position_x request) (request_position_y request))
          (V2 (request_length_x request) (request_length_y request)) in
      let r := ftrunc (fst (length_ subMap)) in
      let c := ftrunc (snd (length_ subMap)) in
      lookup_layer l (layerData (add_auxiliary_layers subMap)) =
        Some (cast_float (Zero r c)) /\
      forall flag msg m,
        fst (getSubmap request n) = inr (flag, msg) ->
        In (l, m) (response_layers msg) ->
        rows m = r /\ cols m = c /\ zero_filled m) /\
  (let n := Demo.scanned (Sc := Binary64) in
   let request := Demo.request (Sc := Binary64) [] in
   size_ (fst (fst (GridMap_getSubmap (gridMap_ n)
                      (V2 (request_position_x request)
                          (request_position_y request))
                      (V2 (request_length_x request)
                          (request_length_y request))))) = (4, 4)%Z /\
   layer_dimensions (fst (getSubmap request n)) =
     Some (("elevation"%string, (4, 4)%Z)
           :: map (fun l => (l, (2, 2)%Z)) auxiliary_layers)).
Proof.
  split.
  - intros Sc O n request l Hl. apply auxiliary_layer_dimensions. exact Hl.
  - split; vm_compute; reflexivity.
Qed.

(** ** Further properties of the pose filter in exact arithmetic *)

Section ExactFilter.
#[local] Existing Instance RScalar.
Context {O : Outside}.
Local Open Scope R_scope.

Lemma residual3_after_step (alpha : R) (raw smoothed : Vector3d) :
  sub3 raw (ema3 alpha raw smoothed) = scale3 (1 - alpha) (sub3 raw smoothed).
Proof.
  unfold sub3, ema3, ema, scale3. rewrite lit_1. simpl. f_equal; ring.
Qed.

Lemma norm3_scale (a : R) (v : Vector3d) :
  norm3 (scale3 a v) = Rabs a * norm3 v.
Proof.
  unfold norm3, scale3. simpl.
  replace (a * x3 v * (a * x3 v) + a * y3 v * (a * y3 v)
           + a * z3 v * (a * z3 v))
    with (Rsqr a * (x3 v * x3 v + y3 v * y3 v + z3 v * z3 v))
    by (unfold Rsqr; ring).
  rewrite sqrt_mult_alt by apply Rle_0_sqr.
  rewrite sqrt_Rsqr_abs. reflexivity.
Qed.

Lemma norm3_nonneg (v : Vector3d) : 0 <= norm3 v.
Proof. unfold norm3. apply sqrt_pos. Qed.

Lemma norm4_nonneg (v : Vector4d) : 0 <= norm4 v.
Proof. unfold norm4. apply sqrt_pos. Qed.

Lemma norm3_zero (v : Vector3d) : norm3 v = 0 -> v = V3 0 0 0.
Proof.
  destruct v as [x y z]. unfold norm3. simpl. intros Hn.
  apply sqrt_eq_0 in Hn; [|nra].
  assert (x = 0) by nra. assert (y = 0) by nra. assert (z = 0) by nra.
  subst. reflexivity.
Qed.

Lemma sub3_origin (v : Vector3d) : sub3 v (V3 0 0 0) = v.
Proof. destruct v. unfold sub3. simpl. f_equal; ring. Qed.

Lemma started_at_origin
      (nh : NodeHandle) (listener : string -> string -> Z -> TfAnswer)
      (now : Z) :
  lowpassPosition_ (ElevationMappingNode nh listener now) = V3 0 0 0 /\
  positionError_ (ElevationMappingNode nh listener now) = 0 /\
  orientationError_ (ElevationMappingNode nh listener now) = 0.
Proof.
  unfold ElevationMappingNode.
  cbn [lowpassPosition_ positionError_ orientationError_].
  rewrite lit_0. repeat split.
Qed.

(** X14: the smoothed position starts at the origin, so after the first
    pose sample [positionError_] is [|1 - positionAlpha_|] times the
    distance of the raw position from the origin; with a factor other than
    1 it is 0 only for a first sample at the origin itself. *)
Theorem first_positionError
        (nh : NodeHandle) (listener : string -> string -> Z -> TfAnswer)
        (now : Z) (before : list Input) (pose : Pose) :
  let started := ElevationMappingNode nh listener now in
  let alpha := positionAlpha_ started in
  let n1 := run (before ++ [OnPose pose]) started in
  pose_samples before = [] ->
  positionError_ n1 = Rabs (1 - alpha) * norm3 (raw_position pose) /\
  (alpha <= 1 -> positionError_ n1 = (1 - alpha) * norm3 (raw_position pose)) /\
  (positionError_ n1 = 0 <-> alpha = 1 \/ raw_position pose = V3 0 0 0).
Proof.
  intros started alpha n1 Hbefore.
  assert (Herr : positionError_ n1 =
                 Rabs (1 - alpha) * norm3 (raw_position pose)).
  { unfold n1. rewrite run_app. unfold run at 1. cbn [fold_left].
    destruct (dispatch_pose_errors (run before started) pose) as (-> & _).
    destruct (run_keeps_filter before started Hbefore) as (_ & ->).
    destruct (run_configuration before started) as (-> & _ & _).
    destruct (started_at_origin nh listener now) as (Hs & _ & _).
    fold started in Hs. rewrite Hs.
    rewrite residual3_after_step, norm3_scale, sub3_origin. reflexivity. }
  split; [exact Herr | split].
  - intros Halpha. rewrite Herr, Rabs_right by lra. reflexivity.
  - rewrite Herr. split.
    + intros Hz. apply Rmult_integral in Hz. destruct Hz as [Hz|Hz].
      * left. destruct (Req_dec (1 - alpha) 0) as [E|E]; [lra|].
        apply Rabs_no_R0 in E. contradiction.
      * right. apply norm3_zero. exact Hz.
    + intros [Ha|Hr].
      * assert (E : 1 - alpha = 0) by lra.
        rewrite E, Rabs_R0. apply Rmult_0_l.
      * rewrite Hr. unfold norm3. simpl.
        replace (0 * 0 + 0 * 0 + 0 * 0) with 0 by ring.
        rewrite sqrt_0. apply Rmult_0_r.
Qed.

Lemma dispatch_errors_nonneg (n : Node) (i : Input) :
  0 <= positionError_ n -> 0 <= orientationError_ n ->
  0 <= positionError_ (dispatch n i) /\ 0 <= orientationError_ (dispatch n i).
Proof.
  intros Hp Ho. destruct (is_pose i) eqn:Hi.
  - destruct i; try discriminate.
    destruct (dispatch_pose_errors n pose) as (-> & ->).
    split; [apply norm3_nonneg | apply norm4_nonneg].
  - destruct (dispatch_keeps_filter n i Hi) as (_ & _ & -> & ->). auto.
Qed.

(** X15: the two uncertainties the node keeps are never negative, in any
    run of the constructed node. *)
Theorem errors_are_never_negative
        (nh : NodeHandle) (listener : string -> string -> Z -> TfAnswer)
        (now : Z) (inputs : list Input) :
  let n := run inputs (ElevationMappingNode nh listener now) in
  0 <= positionError_ n /\ 0 <= orientationError_ n.
Proof.
  cbv zeta.
  destruct (started_at_origin nh listener now) as (_ & Hp & Ho).
  assert (Hgen : forall inputs n,
             0 <= positionError_ n -> 0 <= orientationError_ n ->
             0 <= positionError_ (run inputs n) /\
             0 <= orientationError_ (run inputs n)).
  { clear. induction inputs as [|i inputs IH]; intros n Hp Ho; simpl.
    - auto.
    - destruct (dispatch_errors_nonneg n i Hp Ho). apply IH; assumption. }
  apply Hgen; [rewrite Hp | rewrite Ho]; lra.
Qed.

(** X16: with both smoothing factors at 1 the filter does not smooth: a
    pose sample becomes the smoothed state as it is, and both errors are
    0. *)
Theorem factor_one_passes_the_sample_through (n : Node) (pose : Pose) :
  positionAlpha_ n = 1 -> orientationAlpha_ n = 1 ->
  let n' := snd (poseCallback pose n) in
  lowpassPosition_ n' = raw_position pose /\
  lowpassOrientation_ n' = raw_orientation pose /\
  positionError_ n' = 0 /\ orientationError_ n' = 0.
Proof.
  intros Hp Ho n'. subst n'. rewrite poseCallback_run. cbv zeta. cbn [snd].
  destruct n as [e g tf lp lo pe oe pa oa en fps fid ps pcs tm mx ck j].
  cbn [positionAlpha_ orientationAlpha_] in Hp, Ho. subst pa oa.
  cbn [lowpassPosition_ lowpassOrientation_ positionError_ orientationError_
       positionAlpha_ orientationAlpha_
       set_orientationError_ set_positionError_ set_lowpassOrientation_
       set_lowpassPosition_ set_map_ set_journal].
  assert (E3 : ema3 1 (raw_position pose) lp = raw_position pose).
  { unfold ema3, ema, raw_position. rewrite lit_1. simpl.
    change (@F RScalar) with R in *. f_equal; ring. }
  assert (E4 : ema4 1 (raw_orientation pose) lo = raw_orientation pose).
  { unfold ema4, ema, raw_orientation. rewrite lit_1. simpl.
    change (@F RScalar) with R in *. f_equal; ring. }
  rewrite E3, E4. repeat split.
  - unfold norm3, sub3. simpl.
    match goal with |- sqrt ?x = 0 => replace x with 0 by ring end.
    apply sqrt_0.
  - unfold norm4, sub4. simpl.
    match goal with |- sqrt ?x = 0 => replace x with 0 by ring end.
    apply sqrt_0.
Qed.

(** X17: a pose sample that equals the smoothed state leaves the smoothed
    state as it is and gives the errors 0, whatever the two factors. *)
Theorem sample_at_the_smoothed_state (n : Node) (pose : Pose) :
  raw_position pose = lowpassPosition_ n ->
  raw_orientation pose = lowpassOrientation_ n ->
  let n' := snd (poseCallback pose n) in
  lowpassPosition_ n' = lowpassPosition_ n /\
  lowpassOrientation_ n' = lowpassOrientation_ n /\
  positionError_ n' = 0 /\ orientationError_ n' = 0.
Proof.
  intros Hp Ho n'. subst n'. rewrite poseCallback_run. cbv zeta. cbn [snd].
  rewrite Hp, Ho.
  destruct n as [e g tf lp lo pe oe pa oa en fps fid ps pcs tm mx ck j].
  cbn [lowpassPosition_ lowpassOrientation_ positionError_ orientationError_
       positionAlpha_ orientationAlpha_
       set_orientationError_ set_positionError_ set_lowpassOrientation_
       set_lowpassPosition_ set_map_ set_journal].
  assert (E3 : ema3 pa lp lp = lp).
  { unfold ema3, ema. rewrite lit_1. destruct lp; simpl.
    change (@F RScalar) with R in *. f_equal; ring. }
  assert (E4 : ema4 oa lo lo = lo).
  { unfold ema4, ema. rewrite lit_1. destruct lo; simpl.
    change (@F RScalar) with R in *. f_equal; ring. }
  rewrite E3, E4. repeat split.
  - unfold norm3, sub3. simpl.
    match goal with |- sqrt ?x = 0 => replace x with 0 by ring end.
    apply sqrt_0.
  - unfold norm4, sub4. simpl.
    match goal with |- sqrt ?x = 0 => replace x with 0 by ring end.
    apply sqrt_0.
Qed.

Lemma pose_samples_repeat (pose : Pose) (N : nat) :
  pose_samples (repeat (OnPose pose) N) = repeat (raw_position pose) N.
Proof. induction N as [|N IH]; simpl; [|rewrite IH]; reflexivity. Qed.

(** X18: when the same pose arrives again and again from the start, the
    smoothed position after N+1 samples is the raw position scaled by
    [1 - (1-alpha)^(N+1)], and the position error is the distance of the
    raw position from the origin times [|1-alpha|^(N+1)]: for a factor in
    (0,1] the error shrinks by the factor [1-alpha] with every sample. *)
Theorem constant_pose_series
        (nh : NodeHandle) (listener : string -> string -> Z -> TfAnswer)
        (now : Z) (pose : Pose) (N : nat) :
  let started := ElevationMappingNode nh listener now in
  let alpha := positionAlpha_ started in
  let n := run (repeat (OnPose pose) (S N)) started in
  lowpassPosition_ n =
    scale3 (1 - (1 - alpha) ^ (S N)) (raw_position pose) /\
  positionError_ n = Rabs (1 - alpha) ^ (S N) * norm3 (raw_position pose).
Proof.
  intros started alpha n.
  assert (Hlow : forall M,
             lowpassPosition_ (run (repeat (OnPose pose) M) started) =
             scale3 (1 - (1 - alpha) ^ M) (raw_position pose)).
  { intros M. rewrite run_lowpassPosition, pose_samples_repeat.
    rewrite ema_recurrence_constant.
    destruct (started_at_origin nh listener now) as (Hs & _ & _).
    fold started in Hs. rewrite Hs.
    fold alpha. unfold scale3. simpl.
    change (@F RScalar) with R in *. f_equal; ring. }
  split; [apply Hlow|].
  unfold n.
  change (repeat (OnPose pose) (S N))
    with (OnPose pose :: repeat (OnPose pose) N).
  rewrite repeat_cons, run_app. unfold run at 1. cbn [fold_left].
  destruct (dispatch_pose_errors (run (repeat (OnPose pose) N) started) pose)
    as (-> & _).
  destruct (run_configuration (repeat (OnPose pose) N) started) as (-> & _ & _).
  rewrite Hlow, residual3_after_step, norm3_scale. fold alpha.
  assert (Hres : sub3 (raw_position pose)
                      (scale3 (1 - (1 - alpha) ^ N) (raw_position pose))
                 = scale3 ((1 - alpha) ^ N) (raw_position pose)).
  { unfold sub3, scale3. simpl. change (@F RScalar) with R in *.
    f_equal; ring. }
  rewrite Hres, norm3_scale, <- RPow_abs. simpl. ring.
Qed.

End ExactFilter.

(** ** More concrete runs in exact arithmetic *)

Section MoreExactRuns.
#[local] Existing Instance RScalar.
Local Open Scope R_scope.

Lemma default_positionAlpha : positionAlpha_ Demo.started = 2 / 10.
Proof.
  unfold Demo.started, ElevationMappingNode. cbn [positionAlpha_].
  unfold Demo.nh, param. cbn [param_position_lowpass_alpha].
  simpl. unfold Q2R. simpl. lra.
Qed.

(** With the default factor of 0.2 the first pose sample, at (1,2,3),
    leaves a position error of 0.8 times its distance from the origin. *)
Lemma first_positionError_of_demo_pose :
  let started := Demo.started in
  let alpha := positionAlpha_ started in
  let n1 := run ([] ++ [OnPose Demo.pose]) started in
  positionError_ n1 = (1 - alpha) * norm3 (raw_position Demo.pose).
Proof.
  destruct (first_positionError (O := SmallOutside) Demo.nh
              Demo.listener_ok 0%Z [] Demo.pose eq_refl)
    as (_ & Herr & _).
  apply Herr.
  change (positionAlpha_ Demo.started <= 1).
  rewrite default_positionAlpha. lra.
Defined.

Lemma unfiltered_factors :
  positionAlpha_ MoreDemo.unfiltered = 1 /\
  orientationAlpha_ MoreDemo.unfiltered = 1.
Proof.
  unfold MoreDemo.unfiltered, ElevationMappingNode.
  cbn [positionAlpha_ orientationAlpha_].
  unfold MoreDemo.unfiltered_nh, param.
  cbn [param_position_lowpass_alpha param_orientation_lowpass_alpha].
  rewrite lit_1. split; reflexivity.
Qed.

(** A node configured with both factors 1 takes the pose at (1,2,3) as
    its smoothed state. *)
Lemma unfiltered_node_passes_demo_pose :
  let n' := snd (poseCallback Demo.pose MoreDemo.unfiltered) in
  lowpassPosition_ n' = raw_position Demo.pose /\
  lowpassOrientation_ n' = raw_orientation Demo.pose /\
  positionError_ n' = 0 /\ orientationError_ n' = 0.
Proof.
  exact (factor_one_passes_the_sample_through MoreDemo.unfiltered Demo.pose
           (proj1 unfiltered_factors) (proj2 unfiltered_factors)).
Defined.

(** A first pose at the origin with the identity orientation is the
    smoothed state of a fresh node. *)
Lemma pose_at_rest_changes_nothing :
  let n' := snd (poseCallback MoreDemo.pose_at_rest Demo.started) in
  lowpassPosition_ n' = lowpassPosition_ Demo.started /\
  lowpassOrientation_ n' = lowpassOrientation_ Demo.started /\
  positionError_ n' = 0 /\ orientationError_ n' = 0.
Proof.
  exact (sample_at_the_smoothed_state Demo.started MoreDemo.pose_at_rest
           eq_refl eq_refl).
Defined.

End MoreExactRuns.

(** ** More concrete runs in binary64 *)

Section MoreBinary64Runs.
#[local] Existing Instance Binary64.
Local Open Scope string_scope.
Local Open Scope list_scope.

(** The scan of [Demo.cloud] by the fresh node. *)
Lemma demo_scan_messages :
  let n := Demo.started in
  let n' := snd (pointcloudCallback Demo.cloud n) in
  map_ n' = map_input (points Demo.cloud) (rotation Demo.sensor_pose)
                      (translation Demo.sensor_pose)
                      (positionError_ n) (orientationError_ n) (map_ n) /\
  gridMap_ n' = map_get_grid_map (map_ n') (gridMap_ n) /\
  exists msg,
    toMessage (gridMap_ n') = inr msg /\
    published mapPub_ (since n n') =
      [GridMapMessage (set_info_stamp (clock_ n) msg)] /\
    published alivePub_ (since n n') = [EmptyMessage] /\
    published pointPub_ (since n n') =
      (if enablePointCloudPublishing_ n
       then [PointCloudMessage (toPointCloud (gridMap_ n') "elevation")]
       else []) /\
    published recordablePub_ (since n n') = [].
Proof.
  exact (successful_scan_messages Demo.started Demo.cloud Demo.sensor_pose
           eq_refl).
Defined.

(** Switching republishing on before the scan of [Demo.cloud]. *)
Lemma demo_scan_after_switching_on :
  let n1 := dispatch Demo.started (OnSetPublishPoint true) in
  let n2 := dispatch n1 (OnPointCloud Demo.cloud) in
  fst (setPublishPoint true Demo.started) = inr (true, true) /\
  published pointPub_ (since n1 n2) =
    [PointCloudMessage (toPointCloud (gridMap_ n2) "elevation")].
Proof.
  exact (republishing_follows_the_switch Demo.started true Demo.cloud
           Demo.sensor_pose eq_refl).
Defined.

(** A node whose listener knows no transform stays silent through poses,
    scans, timer ticks and service calls. *)
Lemma blind_node_stays_silent :
  let started := Demo.started_blind in
  gridMap_ (run MoreDemo.blind_inputs started) =
    setFrameId (param (param_map_frame Demo.nh) "map") GridMap_empty /\
  forallb (fun e => negb (is_publish (snd e)))
          (journal (run MoreDemo.blind_inputs started)) = true.
Proof.
  exact (silent_until_the_first_scan Demo.nh Demo.listener_failing 0%Z
           MoreDemo.blind_inputs eq_refl).
Defined.

(** A pose, a timer tick and then the scan of [Demo.cloud]: the engine
    gets the errors of the pose. *)
Lemma demo_scan_uses_pose_errors :
  let n := Demo.started in
  let n1 := run (OnPose Demo.pose :: [OnTimer]) n in
  map_ (dispatch n1 (OnPointCloud Demo.cloud)) =
    map_input (points Demo.cloud) (rotation Demo.sensor_pose)
      (translation Demo.sensor_pose)
      (norm3 (sub3 (raw_position Demo.pose)
                   (ema3 (positionAlpha_ n) (raw_position Demo.pose)
                         (lowpassPosition_ n))))
      (norm4 (sub4 (raw_orientation Demo.pose)
                   (ema4 (orientationAlpha_ n) (raw_orientation Demo.pose)
                         (lowpassOrientation_ n))))
      (map_ n1).
Proof.
  exact (proj1 (scan_uses_the_latest_pose_errors Demo.cloud Demo.sensor_pose)
           Demo.started Demo.pose [OnTimer] eq_refl eq_refl).
Defined.

(** The layers of the answer to a request for the whole map without a
    layer list. *)
Lemma demo_default_layer_order :
  let '(subMap, _, isSuccess) :=
    GridMap_getSubmap (gridMap_ Demo.scanned)
      (V2 (request_position_x (Demo.request []))
          (request_position_y (Demo.request [])))
      (V2 (request_length_x (Demo.request []))
          (request_length_y (Demo.request []))) in
  exists msg,
    fst (getSubmap (Demo.request []) Demo.scanned) = inr (isSuccess, msg) /\
    msg_layers msg =
      getLayers subMap ++
      filter (fun l => negb (exists_ subMap l)) auxiliary_layers.
Proof.
  exact (getSubmap_default_layer_order Demo.scanned (Demo.request []) eq_refl).
Defined.

End MoreBinary64Runs.
